(** * Frame conversions of mavros (src/lib/ftf_frame_conversions.cpp)

    A shallow embedding of the frame-conversion helpers of [mavros::ftf::detail]
    and of the part of Eigen they call.  The C++ [double] is read as a
    real number: every operation is the exact one, so a statement "within
    tolerance" of the specification is stated here as an equality.  Where
    the range of [double] decides (the normalisation of a quaternion whose
    squared norm overflows or underflows), the dynamic transforms are also
    given in binary64, in [Module Double]. *)

From Stdlib Require Import Reals Lra Lia List Arith PeanoNat.
From Stdlib Require Floats.
Import ListNotations.

Open Scope R_scope.

(** ** The part of Eigen used by the file *)

Module Eigen.

(** [Eigen::Quaterniond]; the constructor takes (w, x, y, z). *)
Record Quaterniond : Type := Quaternion { w : R; x : R; y : R; z : R }.

(** [Quaterniond::operator*] (the Hamilton product of Eigen's quat_product). *)
Definition quat_product (a b : Quaterniond) : Quaterniond :=
  Quaternion
    (w a * w b - x a * x b - y a * y b - z a * z b)
    (w a * x b + x a * w b + y a * z b - z a * y b)
    (w a * y b + y a * w b + z a * x b - x a * z b)
    (w a * z b + z a * w b + x a * y b - y a * x b).

(** [Quaterniond(AngleAxisd(angle, axis))] for the three unit axes: the
    scalar part is the cosine of the half angle, the vector part the axis
    times its sine. *)
Definition AngleAxisd_UnitX (angle : R) : Quaterniond :=
  Quaternion (cos (angle / 2)) (sin (angle / 2)) 0 0.
Definition AngleAxisd_UnitY (angle : R) : Quaterniond :=
  Quaternion (cos (angle / 2)) 0 (sin (angle / 2)) 0.
Definition AngleAxisd_UnitZ (angle : R) : Quaterniond :=
  Quaternion (cos (angle / 2)) 0 0 (sin (angle / 2)).

Definition squaredNorm (q : Quaterniond) : R :=
  x q * x q + y q * y q + z q * z q + w q * w q.

Definition norm (q : Quaterniond) : R := sqrt (squaredNorm q).

(** [q.normalized()]: the coefficients divided by the norm; a quaternion of
    squared norm zero is returned as it is (Eigen 3.3 and later test for it;
    earlier versions divide, which is not defined there).  Over the reals
    every non-zero quaternion is normalised to norm one; in binary64 that
    holds, up to rounding, only while the squared norm stays inside the
    range of [double] (see [Props.in_double_range] and [Module Double]). *)
Definition normalized (q : Quaterniond) : Quaterniond :=
  let n2 := squaredNorm q in
  if Rlt_dec 0 n2
  then Quaternion (w q / sqrt n2) (x q / sqrt n2) (y q / sqrt n2) (z q / sqrt n2)
  else q.

(** A fixed-size matrix of doubles, read through its coefficient accessor
    [(i, j)]; the dimension is given to the operations that need it. *)
Definition Matrix : Type := nat -> nat -> R.

Definition Zero : Matrix := fun _ _ => 0.

Definition Identity : Matrix := fun i j => if Nat.eqb i j then 1 else 0.

Fixpoint sum (n : nat) (f : nat -> R) : R :=
  match n with
  | O => 0
  | S k => sum k f + f k
  end.

(** [A * B] for n x n matrices. *)
Definition product (n : nat) (A B : Matrix) : Matrix :=
  fun i j => sum n (fun k => A i k * B k j).

Definition transpose (A : Matrix) : Matrix := fun i j => A j i.

(** [q.toRotationMatrix()]: no normalisation is done here. *)
Definition toRotationMatrix (q : Quaterniond) : Matrix :=
  let tx := 2 * x q in
  let ty := 2 * y q in
  let tz := 2 * z q in
  let twx := tx * w q in
  let twy := ty * w q in
  let twz := tz * w q in
  let txx := tx * x q in
  let txy := ty * x q in
  let txz := tz * x q in
  let tyy := ty * y q in
  let tyz := tz * y q in
  let tzz := tz * z q in
  fun i j =>
    match i, j with
    | 0%nat, 0%nat => 1 - (tyy + tzz)
    | 0%nat, 1%nat => txy - twz
    | 0%nat, 2%nat => txz + twy
    | 1%nat, 0%nat => txy + twz
    | 1%nat, 1%nat => 1 - (txx + tzz)
    | 1%nat, 2%nat => tyz - twx
    | 2%nat, 0%nat => txz - twy
    | 2%nat, 1%nat => tyz + twx
    | 2%nat, 2%nat => 1 - (txx + tyy)
    | _, _ => 0
    end.

(** [M << B00, B01, ..., ;] with 3 x 3 blocks: the comma initialiser fills
    the blocks row of blocks by row of blocks. *)
Definition comma_initializer (blocks : list (list Matrix)) : Matrix :=
  fun i j => nth (j / 3) (nth (i / 3) blocks []) Zero (i mod 3)%nat (j mod 3)%nat.

(** [matrix * quaternion] (RotationBase's operator): the matrix times the
    rotation matrix of the quaternion. *)
Definition product_rotation (l : Matrix) (r : Quaterniond) : Matrix :=
  product 3 l (toRotationMatrix r).

Record Vector3d : Type := Vector3 { vx : R; vy : R; vz : R }.

(** [Eigen::Affine3d]: a linear part and a translation. *)
Record Affine3d : Type := Affine { linear : Matrix; translation : Vector3d }.

(** [Affine3d(q)]: the rotation of [q], no translation. *)
Definition Affine3d_of_rotation (q : Quaterniond) : Affine3d :=
  Affine (toRotationMatrix q) (Vector3 0 0 0).

(** [affine * vec]. *)
Definition transform_vector (t : Affine3d) (v : Vector3d) : Vector3d :=
  let m := linear t in
  Vector3
    (m 0%nat 0%nat * vx v + m 0%nat 1%nat * vy v + m 0%nat 2%nat * vz v + vx (translation t))
    (m 1%nat 0%nat * vx v + m 1%nat 1%nat * vy v + m 1%nat 2%nat * vz v + vy (translation t))
    (m 2%nat 0%nat * vx v + m 2%nat 1%nat * vy v + m 2%nat 2%nat * vz v + vz (translation t)).

(** [Eigen::Map<Matrix<double, n, n, RowMajor>>] over the data of a
    [std::array<double, n * n>]: reading cell (i, j) of the view reads the
    array at [i * n + j], which is within the array for i, j < n ... *)
Definition Map (n : nat) (data : list R) : Matrix :=
  fun i j => nth (i * n + j) data 0.

(** ... and assigning a matrix to the view of a fresh array, which writes
    all its n * n cells. *)
Definition assign (n : nat) (M : Matrix) : list R :=
  map (fun k => M (k / n)%nat (k mod n)%nat) (seq 0 (n * n)).

End Eigen.

(** ** mavros::ftf *)

Module ftf.

(** Modelled from the spec: the enumeration [StaticTF] is declared in
    mavros/frame_tf.h, which is not among the sources; the four selectors
    are the ones the spec lists. *)
Inductive StaticTF : Type :=
  | NED_TO_ENU
  | ENU_TO_NED
  | AIRCRAFT_TO_BASELINK
  | BASELINK_TO_AIRCRAFT.

(** Modelled from the spec: the covariance types of mavros/frame_tf.h are
    flattened row-major arrays of 9, 36 and 81 doubles. *)
Definition Covariance3d : Type := list R.
Definition Covariance6d : Type := list R.
Definition Covariance9d : Type := list R.

(** The constants of <cmath>. *)
Definition M_PI : R := PI.
Definition M_PI_2 : R := PI / 2.

(** Modelled from the spec: [quaternion_from_rpy] is defined in
    ftf_quaternion_utils.cpp, which is not among the sources.  The spec has
    the canonical rotations "derived once from fixed Euler angles", the
    NED/ENU one being "a 180 degree rotation about the North/East axis
    followed by a 90 degree rotation about the Down/Up axis" (in the source
    comment: +PI around X followed by +PI/2 about Z).  So the rotation about
    X by [roll] comes first, then the one about Y by [pitch], then the one
    about Z by [yaw]; as a product of quaternions the first one stands on
    the right. *)
Definition quaternion_from_rpy (roll pitch yaw : R) : Eigen.Quaterniond :=
  Eigen.quat_product
    (Eigen.quat_product (Eigen.AngleAxisd_UnitZ yaw) (Eigen.AngleAxisd_UnitY pitch))
    (Eigen.AngleAxisd_UnitX roll).

Module detail.

Definition NED_ENU_Q : Eigen.Quaterniond := quaternion_from_rpy M_PI 0 M_PI_2.

Definition AIRCRAFT_BASELINK_Q : Eigen.Quaterniond := quaternion_from_rpy M_PI 0 0.

Definition NED_ENU_AFFINE : Eigen.Affine3d := Eigen.Affine3d_of_rotation NED_ENU_Q.

Definition AIRCRAFT_BASELINK_AFFINE : Eigen.Affine3d :=
  Eigen.Affine3d_of_rotation AIRCRAFT_BASELINK_Q.

Definition NED_ENU_R : Eigen.Matrix :=
  Eigen.toRotationMatrix (Eigen.normalized NED_ENU_Q).

Definition AIRCRAFT_BASELINK_R : Eigen.Matrix :=
  Eigen.toRotationMatrix (Eigen.normalized AIRCRAFT_BASELINK_Q).

Definition ZEROM3D : Eigen.Matrix := Eigen.Zero.

Definition transform_orientation (q : Eigen.Quaterniond) (transform : StaticTF)
  : Eigen.Quaterniond :=
  match transform with
  | NED_TO_ENU | ENU_TO_NED => Eigen.quat_product NED_ENU_Q q
  | AIRCRAFT_TO_BASELINK | BASELINK_TO_AIRCRAFT => Eigen.quat_product q AIRCRAFT_BASELINK_Q
  end.

Definition transform_static_frame_Vector3d (vec : Eigen.Vector3d) (transform : StaticTF)
  : Eigen.Vector3d :=
  match transform with
  | NED_TO_ENU | ENU_TO_NED => Eigen.transform_vector NED_ENU_AFFINE vec
  | AIRCRAFT_TO_BASELINK | BASELINK_TO_AIRCRAFT =>
      Eigen.transform_vector AIRCRAFT_BASELINK_AFFINE vec
  end.

Definition transform_static_frame_Covariance3d (cov : Covariance3d) (transform : StaticTF)
  : Covariance3d :=
  let cov_in := Eigen.Map 3 cov in
  match transform with
  | NED_TO_ENU | ENU_TO_NED =>
      Eigen.assign 3 (Eigen.product_rotation cov_in NED_ENU_Q)
  | AIRCRAFT_TO_BASELINK | BASELINK_TO_AIRCRAFT =>
      Eigen.assign 3 (Eigen.product_rotation cov_in AIRCRAFT_BASELINK_Q)
  end.

Definition transform_static_frame_Covariance6d (cov : Covariance6d) (transform : StaticTF)
  : Covariance6d :=
  let cov_in := Eigen.Map 6 cov in
  match transform with
  | NED_TO_ENU | ENU_TO_NED =>
      let R := Eigen.comma_initializer
                 [[NED_ENU_R; ZEROM3D];
                  [ZEROM3D; NED_ENU_R]] in
      Eigen.assign 6 (Eigen.product 6 (Eigen.product 6 R cov_in) (Eigen.transpose R))
  | AIRCRAFT_TO_BASELINK | BASELINK_TO_AIRCRAFT =>
      let R := Eigen.comma_initializer
                 [[AIRCRAFT_BASELINK_R; ZEROM3D];
                  [ZEROM3D; AIRCRAFT_BASELINK_R]] in
      Eigen.assign 6 (Eigen.product 6 (Eigen.product 6 R cov_in) (Eigen.transpose R))
  end.

Definition transform_static_frame_Covariance9d (cov : Covariance9d) (transform : StaticTF)
  : Covariance9d :=
  let cov_in := Eigen.Map 9 cov in
  match transform with
  | NED_TO_ENU | ENU_TO_NED =>
      let R := Eigen.comma_initializer
                 [[NED_ENU_R; ZEROM3D; ZEROM3D];
                  [ZEROM3D; NED_ENU_R; ZEROM3D];
                  [ZEROM3D; ZEROM3D; NED_ENU_R]] in
      Eigen.assign 9 (Eigen.product 9 (Eigen.product 9 R cov_in) (Eigen.transpose R))
  | AIRCRAFT_TO_BASELINK | BASELINK_TO_AIRCRAFT =>
      let R := Eigen.comma_initializer
                 [[AIRCRAFT_BASELINK_R; ZEROM3D; ZEROM3D];
                  [ZEROM3D; AIRCRAFT_BASELINK_R; ZEROM3D];
                  [ZEROM3D; ZEROM3D; AIRCRAFT_BASELINK_R]] in
      Eigen.assign 9 (Eigen.product 9 (Eigen.product 9 R cov_in) (Eigen.transpose R))
  end.

Definition transform_frame_Vector3d (vec : Eigen.Vector3d) (q : Eigen.Quaterniond)
  : Eigen.Vector3d :=
  let transformation := Eigen.Affine3d_of_rotation q in
  Eigen.transform_vector transformation vec.

Definition transform_frame_Covariance3d (cov : Covariance3d) (q : Eigen.Quaterniond)
  : Covariance3d :=
  let cov_in := Eigen.Map 3 cov in
  Eigen.assign 3 (Eigen.product_rotation cov_in q).

Definition transform_frame_Covariance6d (cov : Covariance6d) (q : Eigen.Quaterniond)
  : Covariance6d :=
  let cov_in := Eigen.Map 6 cov in
  let R_q := Eigen.toRotationMatrix (Eigen.normalized q) in
  let R := Eigen.comma_initializer
             [[R_q; ZEROM3D];
              [ZEROM3D; R_q]] in
  Eigen.assign 6 (Eigen.product 6 (Eigen.product 6 R cov_in) (Eigen.transpose R)).

Definition transform_frame_Covariance9d (cov : Covariance9d) (q : Eigen.Quaterniond)
  : Covariance9d :=
  let cov_in := Eigen.Map 9 cov in
  let R_q := Eigen.toRotationMatrix (Eigen.normalized q) in
  let R := Eigen.comma_initializer
             [[R_q; ZEROM3D; ZEROM3D];
              [ZEROM3D; R_q; ZEROM3D];
              [ZEROM3D; ZEROM3D; R_q]] in
  Eigen.assign 9 (Eigen.product 9 (Eigen.product 9 R cov_in) (Eigen.transpose R)).

End detail.

End ftf.

(** ** Definitions used to state the claims *)

Module Spec.

Import ftf.

(** The "paired reverse selector" of a selector. *)
Definition reverse (transform : StaticTF) : StaticTF :=
  match transform with
  | NED_TO_ENU => ENU_TO_NED
  | ENU_TO_NED => NED_TO_ENU
  | AIRCRAFT_TO_BASELINK => BASELINK_TO_AIRCRAFT
  | BASELINK_TO_AIRCRAFT => AIRCRAFT_TO_BASELINK
  end.

(** The 3 x 3 rotation matrix of the canonical rotation a selector chooses. *)
Definition canonical_R (transform : StaticTF) : Eigen.Matrix :=
  match transform with
  | NED_TO_ENU | ENU_TO_NED => detail.NED_ENU_R
  | AIRCRAFT_TO_BASELINK | BASELINK_TO_AIRCRAFT => detail.AIRCRAFT_BASELINK_R
  end.

(** The canonical quaternion a selector chooses. *)
Definition canonical_Q (transform : StaticTF) : Eigen.Quaterniond :=
  match transform with
  | NED_TO_ENU | ENU_TO_NED => detail.NED_ENU_Q
  | AIRCRAFT_TO_BASELINK | BASELINK_TO_AIRCRAFT => detail.AIRCRAFT_BASELINK_Q
  end.

(** The diagonal covariance with 1, 2, 3 on the diagonal. *)
Definition diag123 : Covariance3d := [1; 0; 0; 0; 2; 0; 0; 0; 3].

(** "tiling the 3 x 3 rotation matrix R on the diagonal with zero 3 x 3
    blocks elsewhere". *)
Definition block_tile (R : Eigen.Matrix) : Eigen.Matrix :=
  fun i j => if Nat.eqb (i / 3) (j / 3) then R (i mod 3)%nat (j mod 3)%nat else 0.

(** The sandwich product R . cov . Rt of n x n matrices. *)
Definition sandwich (n : nat) (R cov : Eigen.Matrix) : Eigen.Matrix :=
  Eigen.product n (Eigen.product n R cov) (Eigen.transpose R).

(** The static transform of size 3 as a sandwich product. *)
Definition sandwich_static_Covariance3d (cov : Covariance3d) (transform : StaticTF)
  : Covariance3d :=
  Eigen.assign 3 (sandwich 3 (canonical_R transform) (Eigen.Map 3 cov)).

(** The dynamic transform in the words of the spec: "normalize the input
    orientation, derive its 3 x 3 rotation matrix, block-tile it to the
    required size, and apply the same sandwich product". *)
Definition sandwich_frame (n : nat) (cov : list R) (q : Eigen.Quaterniond) : list R :=
  Eigen.assign n
    (sandwich n (block_tile (Eigen.toRotationMatrix (Eigen.normalized q))) (Eigen.Map n cov)).

(** A flattened n x n matrix is symmetric. *)
Definition symmetric (n : nat) (cov : list R) : Prop :=
  forall i j, (i < n)%nat -> (j < n)%nat ->
    nth (i * n + j) cov 0 = nth (j * n + i) cov 0.

(** The quaternion with every coefficient multiplied by [c]. *)
Definition scale (c : R) (q : Eigen.Quaterniond) : Eigen.Quaterniond :=
  Eigen.Quaternion (c * Eigen.w q) (c * Eigen.x q) (c * Eigen.y q) (c * Eigen.z q).

(** The opposite quaternion, which stands for the same rotation. *)
Definition opposite (q : Eigen.Quaterniond) : Eigen.Quaterniond := scale (-1) q.

(** The matrix with rows (0 1 0), (1 0 0), (0 0 -1). *)
Definition swap_xy_flip_z : Eigen.Matrix :=
  fun i j =>
    match i, j with
    | 0%nat, 1%nat => 1
    | 1%nat, 0%nat => 1
    | 2%nat, 2%nat => -1
    | _, _ => 0
    end.

(** The matrix with rows (1 0 0), (0 -1 0), (0 0 -1). *)
Definition flip_yz : Eigen.Matrix :=
  fun i j =>
    match i, j with
    | 0%nat, 0%nat => 1
    | 1%nat, 1%nat => -1
    | 2%nat, 2%nat => -1
    | _, _ => 0
    end.

(** Two matrices agree on their first n rows and columns. *)
Definition agree (n : nat) (A B : Eigen.Matrix) : Prop :=
  forall i j, (i < n)%nat -> (j < n)%nat -> A i j = B i j.

End Spec.

(** ** Definitions used to state further properties of the code *)

Module Props.

Import ftf.

(** [q.conjugate()]: the vector part negated; for a unit quaternion, the
    inverse rotation. *)
Definition conjugate (q : Eigen.Quaterniond) : Eigen.Quaterniond :=
  Eigen.Quaternion (Eigen.w q) (- Eigen.x q) (- Eigen.y q) (- Eigen.z q).

(** The rotation matrix of a quaternion written with homogeneous entries;
    it is the one of [toRotationMatrix] when the quaternion has norm one. *)
Definition homogeneous (q : Eigen.Quaterniond) : Eigen.Matrix :=
  let a := Eigen.w q in
  let b := Eigen.x q in
  let c := Eigen.y q in
  let d := Eigen.z q in
  fun i j =>
    match i, j with
    | 0%nat, 0%nat => a * a + b * b - c * c - d * d
    | 0%nat, 1%nat => 2 * (b * c - a * d)
    | 0%nat, 2%nat => 2 * (b * d + a * c)
    | 1%nat, 0%nat => 2 * (b * c + a * d)
    | 1%nat, 1%nat => a * a - b * b + c * c - d * d
    | 1%nat, 2%nat => 2 * (c * d - a * b)
    | 2%nat, 0%nat => 2 * (b * d - a * c)
    | 2%nat, 1%nat => 2 * (c * d + a * b)
    | 2%nat, 2%nat => a * a - b * b - c * c + d * d
    | _, _ => 0
    end.

(** The squared length of a vector and the dot product of two. *)
Definition dot (u v : Eigen.Vector3d) : R :=
  Eigen.vx u * Eigen.vx v + Eigen.vy u * Eigen.vy v + Eigen.vz u * Eigen.vz v.

(** Row [i] of a flattened 3 x 3 matrix, as a vector. *)
Definition row (cov : Covariance3d) (i : nat) : Eigen.Vector3d :=
  Eigen.Vector3 (Eigen.Map 3 cov i 0%nat) (Eigen.Map 3 cov i 1%nat) (Eigen.Map 3 cov i 2%nat).

(** The 3 x 3 block in block row [a] and block column [b] of a matrix. *)
Definition block (a b : nat) (M : Eigen.Matrix) : Eigen.Matrix :=
  fun r s => M (3 * a + r)%nat (3 * b + s)%nat.

(** The trace of a flattened n x n matrix. *)
Definition trace (n : nat) (cov : list R) : R :=
  Eigen.sum n (fun i => Eigen.Map n cov i i).

(** What the NED/ENU rotation does to the axes of a 3-D block: x and y are
    exchanged, z changes sign. *)
Definition NED_ENU_axis (r : nat) : nat :=
  match r with
  | 0%nat => 1%nat
  | 1%nat => 0%nat
  | _ => r
  end.

Definition NED_ENU_sign (r : nat) : R :=
  match r with
  | 2%nat => -1
  | _ => 1
  end.

(** What the aircraft/base-link rotation does: y and z change sign. *)
Definition AIRCRAFT_BASELINK_sign (r : nat) : R :=
  match r with
  | 0%nat => 1
  | _ => -1
  end.

(** The squared norm of a quaternion lies well inside the range of
    [double], between 2^-1000 and 2^1000: computing it in binary64 neither
    overflows nor underflows, and the real-number reading of
    [normalized] is the program up to rounding. *)
Definition in_double_range (q : Eigen.Quaterniond) : Prop :=
  / 2 ^ 1000 <= Eigen.squaredNorm q <= 2 ^ 1000.

End Props.

(** ** The dynamic transforms of size 6 and 9 in binary64

    The same source lines (188-223) with [double] read as IEEE binary64,
    where a square can overflow or underflow.  Eigen does not fix the order
    in which a product adds its terms; they are added here from left to
    right, and the module is evaluated only on inputs on which every
    operation is exact. *)

Module Double.

Import Floats.
Local Open Scope float_scope.

Record Quaterniond : Type := Quaternion { w : float; x : float; y : float; z : float }.

Definition squaredNorm (q : Quaterniond) : float :=
  x q * x q + y q * y q + z q * z q + w q * w q.

(** [q.normalized()], with the test [z > 0] on the computed squared norm. *)
Definition normalized (q : Quaterniond) : Quaterniond :=
  let n2 := squaredNorm q in
  if 0 <? n2
  then Quaternion (w q / sqrt n2) (x q / sqrt n2) (y q / sqrt n2) (z q / sqrt n2)
  else q.

Definition Matrix : Type := nat -> nat -> float.

Definition Zero : Matrix := fun _ _ => 0.

Fixpoint sum (n : nat) (f : nat -> float) : float :=
  match n with
  | O => 0
  | S k => sum k f + f k
  end.

Definition product (n : nat) (A B : Matrix) : Matrix :=
  fun i j => sum n (fun k => A i k * B k j).

Definition transpose (A : Matrix) : Matrix := fun i j => A j i.

Definition toRotationMatrix (q : Quaterniond) : Matrix :=
  let tx := 2 * x q in
  let ty := 2 * y q in
  let tz := 2 * z q in
  let twx := tx * w q in
  let twy := ty * w q in
  let twz := tz * w q in
  let txx := tx * x q in
  let txy := ty * x q in
  let txz := tz * x q in
  let tyy := ty * y q in
  let tyz := tz * y q in
  let tzz := tz * z q in
  fun i j =>
    match i, j with
    | 0%nat, 0%nat => 1 - (tyy + tzz)
    | 0%nat, 1%nat => txy - twz
    | 0%nat, 2%nat => txz + twy
    | 1%nat, 0%nat => txy + twz
    | 1%nat, 1%nat => 1 - (txx + tzz)
    | 1%nat, 2%nat => tyz - twx
    | 2%nat, 0%nat => txz - twy
    | 2%nat, 1%nat => tyz + twx
    | 2%nat, 2%nat => 1 - (txx + tyy)
    | _, _ => 0
    end.

Definition comma_initializer (blocks : list (list Matrix)) : Matrix :=
  fun i j => nth (j / 3) (nth (i / 3) blocks []) Zero (i mod 3)%nat (j mod 3)%nat.

Definition Map (n : nat) (data : list float) : Matrix :=
  fun i j => nth (i * n + j) data 0.

Definition assign (n : nat) (M : Matrix) : list float :=
  map (fun k => M (k / n)%nat (k mod n)%nat) (seq 0 (n * n)).

Definition ZEROM3D : Matrix := Zero.

Definition transform_frame_Covariance6d (cov : list float) (q : Quaterniond) : list float :=
  let cov_in := Map 6 cov in
  let R_q := toRotationMatrix (normalized q) in
  let R := comma_initializer
             [[R_q; ZEROM3D];
              [ZEROM3D; R_q]] in
  assign 6 (product 6 (product 6 R cov_in) (transpose R)).

Definition transform_frame_Covariance9d (cov : list float) (q : Quaterniond) : list float :=
  let cov_in := Map 9 cov in
  let R_q := toRotationMatrix (normalized q) in
  let R := comma_initializer
             [[R_q; ZEROM3D; ZEROM3D];
              [ZEROM3D; R_q; ZEROM3D];
              [ZEROM3D; ZEROM3D; R_q]] in
  assign 9 (product 9 (product 9 R cov_in) (transpose R)).

(** The quaternion with every coefficient multiplied by [c]. *)
Definition scale (c : float) (q : Quaterniond) : Quaterniond :=
  Quaternion (c * w q) (c * x q) (c * y q) (c * z q).

(** The scalar 2^-700, whose square is below the smallest positive double. *)
Definition tiny : float := 0x1p-700.

(** The unit quaternion of the half turn about X. *)
Definition half_turn_X : Quaterniond := Quaternion 0 1 0 0.

(** Cell [k] of an array is negative. *)
Definition negative_cell (k : nat) (data : list float) : bool := nth k data 0 <? 0.

(** The scalar -2. *)
Definition minus_two : float := -2.

(** The 6 x 6 array with cells 1, 2, ..., 36. *)
Definition ramp : list float :=
  [ 1;  2;  3;  4;  5;  6;
    7;  8;  9; 10; 11; 12;
   13; 14; 15; 16; 17; 18;
   19; 20; 21; 22; 23; 24;
   25; 26; 27; 28; 29; 30;
   31; 32; 33; 34; 35; 36].

End Double.

(** ** The canonical rotations *)

Section Constants.

Import ftf ftf.detail.

Lemma inv_sqrt2_sqr : / sqrt 2 * / sqrt 2 = / 2.
Proof.
  rewrite <- Rinv_mult, sqrt_sqrt by lra. reflexivity.
Qed.

Lemma NED_ENU_Q_value :
  NED_ENU_Q = Eigen.Quaternion 0 (/ sqrt 2) (/ sqrt 2) 0.
Proof.
  unfold NED_ENU_Q, quaternion_from_rpy, Eigen.AngleAxisd_UnitX, Eigen.AngleAxisd_UnitY,
    Eigen.AngleAxisd_UnitZ, M_PI, M_PI_2, Eigen.quat_product; simpl.
  replace (PI / 2 / 2) with (PI / 4) by field.
  replace (0 / 2) with 0 by field.
  rewrite cos_PI2, sin_PI2, cos_PI4, sin_PI4, cos_0, sin_0.
  f_equal; field; apply Rgt_not_eq, sqrt_lt_R0; lra.
Qed.

Lemma AIRCRAFT_BASELINK_Q_value :
  AIRCRAFT_BASELINK_Q = Eigen.Quaternion 0 1 0 0.
Proof.
  unfold AIRCRAFT_BASELINK_Q, quaternion_from_rpy, Eigen.AngleAxisd_UnitX,
    Eigen.AngleAxisd_UnitY, Eigen.AngleAxisd_UnitZ, M_PI, Eigen.quat_product; simpl.
  replace (0 / 2) with 0 by field.
  rewrite cos_PI2, sin_PI2, cos_0, sin_0.
  f_equal; ring.
Qed.

Lemma squaredNorm_NED_ENU_Q : Eigen.squaredNorm NED_ENU_Q = 1.
Proof.
  rewrite NED_ENU_Q_value. unfold Eigen.squaredNorm; simpl.
  rewrite inv_sqrt2_sqr. lra.
Qed.

Lemma squaredNorm_AIRCRAFT_BASELINK_Q : Eigen.squaredNorm AIRCRAFT_BASELINK_Q = 1.
Proof.
  rewrite AIRCRAFT_BASELINK_Q_value. unfold Eigen.squaredNorm; simpl. ring.
Qed.

Lemma normalized_unit (q : Eigen.Quaterniond) :
  Eigen.squaredNorm q = 1 -> Eigen.normalized q = q.
Proof.
  intros H. unfold Eigen.normalized. rewrite H, sqrt_1.
  destruct (Rlt_dec 0 1) as [_ | N]; [| exfalso; lra].
  destruct q; simpl; f_equal; field.
Qed.

End Constants.

(** ** Rotation matrices of the canonical rotations *)

Section RotationMatrices.

Import ftf ftf.detail.

Ltac each_entry i j :=
  destruct i as [| [| [| i]]]; destruct j as [| [| [| j]]]; simpl.

Lemma toRotationMatrix_NED_ENU_Q (i j : nat) :
  Eigen.toRotationMatrix NED_ENU_Q i j = Spec.swap_xy_flip_z i j.
Proof.
  rewrite NED_ENU_Q_value. unfold Eigen.toRotationMatrix.
  each_entry i j; try ring;
    replace (2 * / sqrt 2 * / sqrt 2) with (2 * (/ sqrt 2 * / sqrt 2)) by ring;
    rewrite inv_sqrt2_sqr; lra.
Qed.

Lemma toRotationMatrix_AIRCRAFT_BASELINK_Q (i j : nat) :
  Eigen.toRotationMatrix AIRCRAFT_BASELINK_Q i j = Spec.flip_yz i j.
Proof.
  rewrite AIRCRAFT_BASELINK_Q_value. unfold Eigen.toRotationMatrix.
  each_entry i j; ring.
Qed.

Lemma NED_ENU_R_value (i j : nat) : NED_ENU_R i j = Spec.swap_xy_flip_z i j.
Proof.
  unfold NED_ENU_R. rewrite (normalized_unit _ squaredNorm_NED_ENU_Q).
  apply toRotationMatrix_NED_ENU_Q.
Qed.

Lemma AIRCRAFT_BASELINK_R_value (i j : nat) : AIRCRAFT_BASELINK_R i j = Spec.flip_yz i j.
Proof.
  unfold AIRCRAFT_BASELINK_R. rewrite (normalized_unit _ squaredNorm_AIRCRAFT_BASELINK_Q).
  apply toRotationMatrix_AIRCRAFT_BASELINK_Q.
Qed.

(** The rotation matrix of a quaternion is that of its opposite, and more
    generally does not change when the normalised quaternion changes sign. *)
Lemma toRotationMatrix_scale_sign (q : Eigen.Quaterniond) (s : R) (i j : nat) :
  s * s = 1 ->
  Eigen.toRotationMatrix (Spec.scale s q) i j = Eigen.toRotationMatrix q i j.
Proof.
  intros Hs.
  assert (E : forall u v, 2 * (s * u) * (s * v) = 2 * u * v).
  { intros u v. transitivity (s * s * (2 * u * v)); [ring | rewrite Hs; ring]. }
  destruct q as [a b c d]. unfold Eigen.toRotationMatrix, Spec.scale.
  each_entry i j; rewrite ?E; reflexivity.
Qed.

End RotationMatrices.

(** ** Finite sums and matrix products *)

Section MatrixAlgebra.

Import Eigen.

Lemma sum_ext (n : nat) (f g : nat -> R) :
  (forall k, (k < n)%nat -> f k = g k) -> sum n f = sum n g.
Proof.
  induction n as [| n IH]; intros H; simpl; [reflexivity |].
  rewrite IH by (intros k Hk; apply H; lia).
  rewrite (H n) by lia. reflexivity.
Qed.

Lemma sum_zero (n : nat) : sum n (fun _ => 0) = 0.
Proof. induction n as [| n IH]; simpl; [| rewrite IH]; ring. Qed.

Lemma sum_plus (n : nat) (f g : nat -> R) :
  sum n (fun k => f k + g k) = sum n f + sum n g.
Proof. induction n as [| n IH]; simpl; [| rewrite IH]; ring. Qed.

Lemma sum_scal_l (n : nat) (c : R) (f : nat -> R) :
  sum n (fun k => c * f k) = c * sum n f.
Proof. induction n as [| n IH]; simpl; [| rewrite IH]; ring. Qed.

Lemma sum_scal_r (n : nat) (c : R) (f : nat -> R) :
  sum n (fun k => f k * c) = sum n f * c.
Proof. induction n as [| n IH]; simpl; [| rewrite IH]; ring. Qed.

Lemma sum_swap (n m : nat) (f : nat -> nat -> R) :
  sum n (fun k => sum m (fun l => f k l)) = sum m (fun l => sum n (fun k => f k l)).
Proof.
  induction n as [| n IH]; simpl.
  - symmetry. apply sum_zero.
  - rewrite IH, <- sum_plus. reflexivity.
Qed.

(** Only the term of index [i] remains in a sum guarded by [i =? k]. *)
Lemma sum_pick (n i : nat) (g : nat -> R) :
  (i < n)%nat -> sum n (fun k => if Nat.eqb i k then g k else 0) = g i.
Proof.
  induction n as [| n IH]; intros Hi; [lia |]. simpl.
  destruct (Nat.eqb_spec i n) as [-> | Hne].
  - rewrite (sum_ext n _ (fun _ => 0)), sum_zero; [ring |].
    intros k Hk. destruct (Nat.eqb_spec n k); [lia | reflexivity].
  - rewrite IH by lia. ring.
Qed.

(** A sum over 3 * k indices, block of three by block of three. *)
Lemma sum_blocks (k : nat) (f : nat -> R) :
  sum (3 * k) f = sum k (fun b => sum 3 (fun r => f (3 * b + r)%nat)).
Proof.
  induction k as [| k IH].
  - reflexivity.
  - replace (3 * S k)%nat with (S (S (S (3 * k)))) by lia.
    cbn [sum]. rewrite IH. cbn [sum].
    replace (3 * k + 0)%nat with (3 * k)%nat by lia.
    replace (3 * k + 1)%nat with (S (3 * k)) by lia.
    replace (3 * k + 2)%nat with (S (S (3 * k))) by lia.
    ring.
Qed.

Lemma product_assoc (n : nat) (A B C : Matrix) (i j : nat) :
  product n (product n A B) C i j = product n A (product n B C) i j.
Proof.
  unfold product.
  rewrite (sum_ext n _ (fun l => sum n (fun k => A i k * B k l * C l j)))
    by (intros; symmetry; apply sum_scal_r).
  rewrite sum_swap. apply sum_ext; intros k _.
  rewrite <- sum_scal_l. apply sum_ext; intros l _. ring.
Qed.

Lemma transpose_product (n : nat) (A B : Matrix) (i j : nat) :
  transpose (product n A B) i j = product n (transpose B) (transpose A) i j.
Proof. unfold transpose, product. apply sum_ext; intros; ring. Qed.

Lemma product_Identity_l (n : nat) (A : Matrix) : Spec.agree n (product n Identity A) A.
Proof.
  intros i j Hi _. unfold product, Identity.
  rewrite (sum_ext n _ (fun k => if Nat.eqb i k then A k j else 0)).
  - apply (sum_pick n i (fun k => A k j)); assumption.
  - intros k _. destruct (Nat.eqb i k); ring.
Qed.

Lemma product_Identity_r (n : nat) (A : Matrix) : Spec.agree n (product n A Identity) A.
Proof.
  intros i j _ Hj. unfold product, Identity.
  rewrite (sum_ext n _ (fun k => if Nat.eqb j k then A i k else 0)).
  - apply (sum_pick n j (fun k => A i k)); assumption.
  - intros k _. rewrite (Nat.eqb_sym k j). destruct (Nat.eqb j k); ring.
Qed.

Lemma agree_refl (n : nat) (A : Matrix) : Spec.agree n A A.
Proof. intros i j _ _. reflexivity. Qed.

Lemma agree_sym (n : nat) (A B : Matrix) : Spec.agree n A B -> Spec.agree n B A.
Proof. intros H i j Hi Hj. symmetry. apply H; assumption. Qed.

Lemma agree_trans (n : nat) (A B C : Matrix) :
  Spec.agree n A B -> Spec.agree n B C -> Spec.agree n A C.
Proof. intros H1 H2 i j Hi Hj. rewrite H1, H2 by assumption. reflexivity. Qed.

Lemma agree_pointwise (n : nat) (A B : Matrix) :
  (forall i j, A i j = B i j) -> Spec.agree n A B.
Proof. intros H i j _ _. apply H. Qed.

Lemma product_agree (n : nat) (A A' B B' : Matrix) :
  Spec.agree n A A' -> Spec.agree n B B' ->
  Spec.agree n (product n A B) (product n A' B').
Proof.
  intros HA HB i j Hi Hj. unfold product. apply sum_ext; intros k Hk.
  rewrite HA, HB by assumption. reflexivity.
Qed.

Lemma transpose_agree (n : nat) (A A' : Matrix) :
  Spec.agree n A A' -> Spec.agree n (transpose A) (transpose A').
Proof. intros H i j Hi Hj. unfold transpose. apply H; assumption. Qed.

End MatrixAlgebra.

(** ** Block-tiled matrices and the comma initialiser *)

Section Blocks.

Import Eigen.

Lemma div3_block (b r : nat) : (r < 3)%nat -> ((3 * b + r) / 3 = b)%nat.
Proof. intros Hr. symmetry. apply (Nat.div_unique _ 3 b r); [assumption | reflexivity]. Qed.

Lemma mod3_block (b r : nat) : (r < 3)%nat -> ((3 * b + r) mod 3 = r)%nat.
Proof. intros Hr. symmetry. apply (Nat.mod_unique _ 3 b r); [assumption | reflexivity]. Qed.

Lemma block_tile_pointwise (A B : Matrix) :
  Spec.agree 3 A B -> forall i j, Spec.block_tile A i j = Spec.block_tile B i j.
Proof.
  intros H i j. unfold Spec.block_tile.
  destruct (Nat.eqb (i / 3) (j / 3)); [| reflexivity].
  apply H; apply Nat.mod_upper_bound; discriminate.
Qed.

Lemma block_tile_transpose (A : Matrix) (i j : nat) :
  transpose (Spec.block_tile A) i j = Spec.block_tile (transpose A) i j.
Proof.
  unfold transpose, Spec.block_tile. rewrite (Nat.eqb_sym (j / 3) (i / 3)). reflexivity.
Qed.

Lemma block_tile_Identity (i j : nat) : Spec.block_tile Identity i j = Identity i j.
Proof.
  unfold Spec.block_tile, Identity.
  pose proof (Nat.div_mod_eq i 3) as Ei. pose proof (Nat.div_mod_eq j 3) as Ej.
  destruct (Nat.eqb_spec (i / 3) (j / 3)) as [Hd | Hd];
    [destruct (Nat.eqb_spec (i mod 3) (j mod 3)) as [Hm | Hm] |];
    destruct (Nat.eqb_spec i j) as [Hij | Hij]; try reflexivity; exfalso.
  - apply Hij. lia.
  - apply Hm. rewrite Hij. reflexivity.
  - apply Hd. rewrite Hij. reflexivity.
Qed.

(** The product of two tiled matrices is the tiled product. *)
Lemma block_tile_product (k : nat) (A B : Matrix) :
  Spec.agree (3 * k)
    (product (3 * k) (Spec.block_tile A) (Spec.block_tile B))
    (Spec.block_tile (product 3 A B)).
Proof.
  intros i j Hi Hj. unfold product at 1. rewrite sum_blocks.
  assert (Hb : (i / 3 < k)%nat) by (apply Nat.Div0.div_lt_upper_bound; lia).
  rewrite (sum_ext k _
    (fun b => if Nat.eqb (i / 3) b
              then Spec.block_tile (product 3 A B) i j else 0)).
  - rewrite (sum_pick k (i / 3) (fun _ => Spec.block_tile (product 3 A B) i j)) by assumption.
    reflexivity.
  - intros b _. unfold Spec.block_tile, product. cbn [sum].
    rewrite !div3_block, !mod3_block by lia.
    destruct (Nat.eqb_spec (i / 3) b) as [<- | Hne].
    + destruct (Nat.eqb (i / 3) (j / 3)); ring.
    + ring.
Qed.

Lemma comma_initializer_tile2 (A : Matrix) :
  Spec.agree 6 (comma_initializer [[A; Zero]; [Zero; A]]) (Spec.block_tile A).
Proof.
  intros i j Hi Hj.
  do 6 (destruct i as [| i]; [do 6 (destruct j as [| j]; [reflexivity |]); lia |]).
  lia.
Qed.

Lemma comma_initializer_tile3 (A : Matrix) :
  Spec.agree 9
    (comma_initializer [[A; Zero; Zero]; [Zero; A; Zero]; [Zero; Zero; A]])
    (Spec.block_tile A).
Proof.
  intros i j Hi Hj.
  do 9 (destruct i as [| i]; [do 9 (destruct j as [| j]; [reflexivity |]); lia |]).
  lia.
Qed.

End Blocks.

(** ** Arrays seen as row-major matrices *)

Section Arrays.

Import Eigen.

Lemma length_assign (n : nat) (M : Matrix) : length (assign n M) = (n * n)%nat.
Proof. unfold assign. rewrite length_map, length_seq. reflexivity. Qed.

Lemma nth_map_seq (f : nat -> R) (len k : nat) :
  (k < len)%nat -> nth k (map f (seq 0 len)) 0 = f k.
Proof.
  intros Hk.
  rewrite (nth_indep _ 0 (f 0%nat)) by (rewrite length_map, length_seq; assumption).
  rewrite map_nth, seq_nth by assumption. reflexivity.
Qed.

Lemma nth_assign (n : nat) (M : Matrix) (k : nat) :
  (k < n * n)%nat -> nth k (assign n M) 0 = M (k / n)%nat (k mod n)%nat.
Proof.
  intros Hk. unfold assign.
  apply (nth_map_seq (fun k => M (k / n)%nat (k mod n)%nat)). assumption.
Qed.

Lemma Map_assign (n : nat) (M : Matrix) : Spec.agree n (Map n (assign n M)) M.
Proof.
  intros i j Hi Hj. unfold Map. rewrite nth_assign by nia.
  rewrite <- (Nat.div_unique (i * n + j) n i j), <- (Nat.mod_unique (i * n + j) n i j);
    (reflexivity || assumption || lia).
Qed.

Lemma assign_Map (n : nat) (cov : list R) :
  length cov = (n * n)%nat -> assign n (Map n cov) = cov.
Proof.
  intros Hlen. apply (nth_ext _ _ 0 0).
  - rewrite length_assign. symmetry. assumption.
  - intros k Hk. rewrite length_assign in Hk. rewrite nth_assign by assumption.
    unfold Map. f_equal. pose proof (Nat.div_mod_eq k n). lia.
Qed.

Lemma assign_agree (n : nat) (M M' : Matrix) :
  Spec.agree n M M' -> assign n M = assign n M'.
Proof.
  intros H. unfold assign. apply map_ext_in. intros k Hk.
  apply in_seq in Hk. destruct Hk as [_ Hk]. simpl in Hk.
  assert (Hn : (0 < n)%nat) by (destruct n; [simpl in Hk |]; lia).
  apply H.
  - apply Nat.Div0.div_lt_upper_bound; lia.
  - apply Nat.mod_upper_bound; lia.
Qed.

End Arrays.

(** ** Sandwich products *)

Section Sandwich.

Import Eigen.

Lemma sandwich_agree (n : nat) (R R' C C' : Matrix) :
  Spec.agree n R R' -> Spec.agree n C C' ->
  Spec.agree n (Spec.sandwich n R C) (Spec.sandwich n R' C').
Proof.
  intros HR HC. unfold Spec.sandwich.
  apply product_agree; [apply product_agree; assumption | apply transpose_agree; assumption].
Qed.

(** Multiplying twice on the right by a matrix of square one changes nothing. *)
Lemma product_involution_r (n : nat) (R C : Matrix) :
  Spec.agree n (product n R R) Identity ->
  Spec.agree n (product n (product n C R) R) C.
Proof.
  intros HR.
  apply agree_trans with (product n C (product n R R)).
  - apply agree_pointwise, product_assoc.
  - apply agree_trans with (product n C Identity).
    + apply product_agree; [apply agree_refl | exact HR].
    + apply product_Identity_r.
Qed.

Lemma product_involution_l (n : nat) (R C : Matrix) :
  Spec.agree n (product n R R) Identity ->
  Spec.agree n (product n R (product n R C)) C.
Proof.
  intros HR.
  apply agree_trans with (product n (product n R R) C).
  - apply agree_sym, agree_pointwise, product_assoc.
  - apply agree_trans with (product n Identity C).
    + apply product_agree; [exact HR | apply agree_refl].
    + apply product_Identity_l.
Qed.

(** The sandwich by a symmetric matrix of square one, done twice. *)
Lemma sandwich_involution (n : nat) (R C : Matrix) :
  Spec.agree n (product n R R) Identity ->
  (forall i j, transpose R i j = R i j) ->
  Spec.agree n (Spec.sandwich n R (Spec.sandwich n R C)) C.
Proof.
  intros HR HT. unfold Spec.sandwich.
  assert (Ht : Spec.agree n (transpose R) R) by (apply agree_pointwise, HT).
  apply agree_trans with (product n (product n R (product n (product n R C) R)) R).
  { apply product_agree; [| exact Ht].
    apply product_agree; [apply agree_refl |].
    apply product_agree; [apply agree_refl | exact Ht]. }
  apply agree_trans with (product n (product n (product n R (product n R C)) R) R).
  { apply product_agree; [| apply agree_refl].
    apply agree_sym, agree_pointwise, product_assoc. }
  apply agree_trans with (product n R (product n R C)).
  - apply product_involution_r, HR.
  - apply product_involution_l, HR.
Qed.

(** The sandwich of a symmetric matrix is symmetric, whatever [R] is. *)
Lemma sandwich_symmetric (n : nat) (R C : Matrix) :
  Spec.agree n (transpose C) C ->
  Spec.agree n (transpose (Spec.sandwich n R C)) (Spec.sandwich n R C).
Proof.
  intros HC. unfold Spec.sandwich.
  apply agree_trans with (product n R (product n (transpose C) (transpose R))).
  - intros i j _ _. rewrite transpose_product.
    apply sum_ext; intros k _. f_equal. apply transpose_product.
  - apply agree_trans with (product n R (product n C (transpose R))).
    + apply product_agree; [apply agree_refl |].
      apply product_agree; [exact HC | apply agree_refl].
    + apply agree_sym, agree_pointwise, product_assoc.
Qed.

Lemma symmetric_Map (n : nat) (cov : list R) :
  Spec.symmetric n cov <-> Spec.agree n (transpose (Map n cov)) (Map n cov).
Proof.
  unfold Spec.symmetric, Spec.agree, transpose, Map. split; intros H i j Hi Hj.
  - apply H; assumption.
  - apply H; assumption.
Qed.

Lemma symmetric_assign (n : nat) (M : Matrix) :
  Spec.agree n (transpose M) M -> Spec.symmetric n (assign n M).
Proof.
  intros H. apply symmetric_Map.
  apply agree_trans with (transpose M).
  - apply transpose_agree, Map_assign.
  - apply agree_trans with M; [exact H | apply agree_sym, Map_assign].
Qed.

End Sandwich.

(** ** The canonical rotations are symmetric and of square one *)

Section Involutions.

Import ftf ftf.detail.

Ltac first3 i j :=
  destruct i as [| [| [| i]]]; [| | | lia];
  (destruct j as [| [| [| j]]]; [| | | lia]).

Lemma swap_xy_flip_z_square :
  Spec.agree 3 (Eigen.product 3 Spec.swap_xy_flip_z Spec.swap_xy_flip_z) Eigen.Identity.
Proof.
  intros i j Hi Hj. unfold Eigen.product, Eigen.Identity. cbn [Eigen.sum].
  first3 i j; simpl; ring.
Qed.

Lemma flip_yz_square :
  Spec.agree 3 (Eigen.product 3 Spec.flip_yz Spec.flip_yz) Eigen.Identity.
Proof.
  intros i j Hi Hj. unfold Eigen.product, Eigen.Identity. cbn [Eigen.sum].
  first3 i j; simpl; ring.
Qed.

Lemma swap_xy_flip_z_transpose (i j : nat) :
  Eigen.transpose Spec.swap_xy_flip_z i j = Spec.swap_xy_flip_z i j.
Proof.
  unfold Eigen.transpose.
  destruct i as [| [| [| i]]]; destruct j as [| [| [| j]]]; reflexivity.
Qed.

Lemma flip_yz_transpose (i j : nat) :
  Eigen.transpose Spec.flip_yz i j = Spec.flip_yz i j.
Proof.
  unfold Eigen.transpose.
  destruct i as [| [| [| i]]]; destruct j as [| [| [| j]]]; reflexivity.
Qed.

(** The explicit matrix of the rotation a selector chooses. *)
Lemma canonical_R_value (transform : StaticTF) :
  exists M : Eigen.Matrix,
    (forall i j, Spec.canonical_R transform i j = M i j)
    /\ Spec.agree 3 (Eigen.product 3 M M) Eigen.Identity
    /\ (forall i j, Eigen.transpose M i j = M i j).
Proof.
  destruct transform;
    [exists Spec.swap_xy_flip_z | exists Spec.swap_xy_flip_z
     | exists Spec.flip_yz | exists Spec.flip_yz]; simpl;
    auto using NED_ENU_R_value, AIRCRAFT_BASELINK_R_value, swap_xy_flip_z_square,
      flip_yz_square, swap_xy_flip_z_transpose, flip_yz_transpose.
Qed.

Lemma canonical_R_square (transform : StaticTF) :
  Spec.agree 3
    (Eigen.product 3 (Spec.canonical_R transform) (Spec.canonical_R transform))
    Eigen.Identity.
Proof.
  destruct (canonical_R_value transform) as [M (HM & Hsq & _)].
  apply agree_trans with (Eigen.product 3 M M); [| exact Hsq].
  apply product_agree; apply agree_pointwise, HM.
Qed.

Lemma canonical_R_transpose (transform : StaticTF) (i j : nat) :
  Eigen.transpose (Spec.canonical_R transform) i j = Spec.canonical_R transform i j.
Proof.
  destruct (canonical_R_value transform) as [M (HM & _ & Ht)].
  unfold Eigen.transpose in *. rewrite !HM. apply Ht.
Qed.

Lemma canonical_R_reverse (transform : StaticTF) :
  Spec.canonical_R (Spec.reverse transform) = Spec.canonical_R transform.
Proof. destruct transform; reflexivity. Qed.

(** Tiled, the canonical rotations keep both properties. *)
Lemma block_tile_canonical_square (k : nat) (transform : StaticTF) :
  Spec.agree (3 * k)
    (Eigen.product (3 * k) (Spec.block_tile (Spec.canonical_R transform))
       (Spec.block_tile (Spec.canonical_R transform)))
    Eigen.Identity.
Proof.
  eapply agree_trans; [apply block_tile_product |].
  intros i j _ _. rewrite <- block_tile_Identity.
  apply block_tile_pointwise, canonical_R_square.
Qed.

Lemma block_tile_canonical_transpose (transform : StaticTF) (i j : nat) :
  Eigen.transpose (Spec.block_tile (Spec.canonical_R transform)) i j
  = Spec.block_tile (Spec.canonical_R transform) i j.
Proof.
  rewrite block_tile_transpose. apply block_tile_pointwise.
  apply agree_pointwise, canonical_R_transpose.
Qed.

End Involutions.

(** ** The covariance transforms as matrix expressions *)

Section Covariances.

Import ftf ftf.detail.

Lemma canonical_Q_rotation (transform : StaticTF) (i j : nat) :
  Eigen.toRotationMatrix (Spec.canonical_Q transform) i j = Spec.canonical_R transform i j.
Proof.
  destruct transform; simpl;
    first [ rewrite toRotationMatrix_NED_ENU_Q, NED_ENU_R_value
          | rewrite toRotationMatrix_AIRCRAFT_BASELINK_Q, AIRCRAFT_BASELINK_R_value ];
    reflexivity.
Qed.

Lemma static_Covariance3d_product (cov : Covariance3d) (transform : StaticTF) :
  transform_static_frame_Covariance3d cov transform
  = Eigen.assign 3 (Eigen.product 3 (Eigen.Map 3 cov) (Spec.canonical_R transform)).
Proof.
  transitivity (Eigen.assign 3
    (Eigen.product 3 (Eigen.Map 3 cov) (Eigen.toRotationMatrix (Spec.canonical_Q transform)))).
  - destruct transform; reflexivity.
  - apply assign_agree, product_agree;
      [apply agree_refl | apply agree_pointwise, canonical_Q_rotation].
Qed.

Lemma static_Covariance6d_sandwich (cov : Covariance6d) (transform : StaticTF) :
  transform_static_frame_Covariance6d cov transform
  = Eigen.assign 6
      (Spec.sandwich 6 (Spec.block_tile (Spec.canonical_R transform)) (Eigen.Map 6 cov)).
Proof.
  destruct transform; apply assign_agree;
    exact (sandwich_agree 6 _ _ _ _ (comma_initializer_tile2 _) (agree_refl _ _)).
Qed.

Lemma static_Covariance9d_sandwich (cov : Covariance9d) (transform : StaticTF) :
  transform_static_frame_Covariance9d cov transform
  = Eigen.assign 9
      (Spec.sandwich 9 (Spec.block_tile (Spec.canonical_R transform)) (Eigen.Map 9 cov)).
Proof.
  destruct transform; apply assign_agree;
    exact (sandwich_agree 9 _ _ _ _ (comma_initializer_tile3 _) (agree_refl _ _)).
Qed.

(** A sandwich by a symmetric matrix of square one, written to an array and
    done again on that array, gives the first array back. *)
Lemma sandwich_round_trip (n : nat) (Rot : Eigen.Matrix) (cov : list R) :
  length cov = (n * n)%nat ->
  Spec.agree n (Eigen.product n Rot Rot) Eigen.Identity ->
  (forall i j, Eigen.transpose Rot i j = Rot i j) ->
  Eigen.assign n
    (Spec.sandwich n Rot (Eigen.Map n (Eigen.assign n (Spec.sandwich n Rot (Eigen.Map n cov)))))
  = cov.
Proof.
  intros Hlen Hsq Ht.
  transitivity (Eigen.assign n (Eigen.Map n cov)); [| apply assign_Map, Hlen].
  apply assign_agree.
  eapply agree_trans.
  - apply sandwich_agree; [apply agree_refl | apply Map_assign].
  - apply sandwich_involution; assumption.
Qed.

Lemma product_round_trip (n : nat) (Rot : Eigen.Matrix) (cov : list R) :
  length cov = (n * n)%nat ->
  Spec.agree n (Eigen.product n Rot Rot) Eigen.Identity ->
  Eigen.assign n
    (Eigen.product n (Eigen.Map n (Eigen.assign n (Eigen.product n (Eigen.Map n cov) Rot))) Rot)
  = cov.
Proof.
  intros Hlen Hsq.
  transitivity (Eigen.assign n (Eigen.Map n cov)); [| apply assign_Map, Hlen].
  apply assign_agree.
  eapply agree_trans.
  - apply product_agree; [apply Map_assign | apply agree_refl].
  - apply product_involution_r, Hsq.
Qed.

End Covariances.

(** ** Quaternions: norms and scaling *)

Section Quaternions.

Lemma squaredNorm_product (a b : Eigen.Quaterniond) :
  Eigen.squaredNorm (Eigen.quat_product a b) = Eigen.squaredNorm a * Eigen.squaredNorm b.
Proof. destruct a, b. unfold Eigen.squaredNorm, Eigen.quat_product; simpl. ring. Qed.

Lemma squaredNorm_nonneg (q : Eigen.Quaterniond) : 0 <= Eigen.squaredNorm q.
Proof. destruct q. unfold Eigen.squaredNorm; simpl. nra. Qed.

Lemma squaredNorm_scale (c : R) (q : Eigen.Quaterniond) :
  Eigen.squaredNorm (Spec.scale c q) = c * c * Eigen.squaredNorm q.
Proof. destruct q. unfold Eigen.squaredNorm, Spec.scale; simpl. ring. Qed.

Lemma squaredNorm_zero (q : Eigen.Quaterniond) :
  Eigen.squaredNorm q = 0 -> q = Eigen.Quaternion 0 0 0 0.
Proof.
  destruct q as [a b c d]. unfold Eigen.squaredNorm; simpl. intros H.
  f_equal; nra.
Qed.

Lemma quat_product_assoc (a b c : Eigen.Quaterniond) :
  Eigen.quat_product (Eigen.quat_product a b) c
  = Eigen.quat_product a (Eigen.quat_product b c).
Proof. destruct a, b, c. unfold Eigen.quat_product; simpl. f_equal; ring. Qed.

(** Scaling a quaternion by a non-zero factor changes its normalisation by
    a sign only, which the rotation matrix does not see. *)
Lemma normalized_scale_rotation (c : R) (q : Eigen.Quaterniond) (i j : nat) :
  c <> 0 ->
  Eigen.toRotationMatrix (Eigen.normalized (Spec.scale c q)) i j
  = Eigen.toRotationMatrix (Eigen.normalized q) i j.
Proof.
  intros Hc. unfold Eigen.normalized. rewrite squaredNorm_scale.
  pose proof (squaredNorm_nonneg q) as Hq.
  assert (Hcc : 0 < c * c) by nra.
  destruct (Rlt_dec 0 (Eigen.squaredNorm q)) as [Hpos | Hnot].
  - destruct (Rlt_dec 0 (c * c * Eigen.squaredNorm q)) as [_ | Hn]; [| exfalso; nra].
    assert (Hs : sqrt (c * c * Eigen.squaredNorm q) = Rabs c * sqrt (Eigen.squaredNorm q)).
    { rewrite sqrt_mult by lra. f_equal. apply (sqrt_Rsqr_abs c). }
    assert (Ha : Rabs c <> 0) by (apply Rabs_no_R0; assumption).
    assert (Hr : sqrt (Eigen.squaredNorm q) <> 0) by (apply Rgt_not_eq, sqrt_lt_R0; assumption).
    assert (Hss : c / Rabs c * (c / Rabs c) = 1).
    { pose proof (Rsqr_abs c) as Habs. unfold Rsqr in Habs.
      replace (c / Rabs c * (c / Rabs c)) with ((c * c) / (Rabs c * Rabs c))
        by (field; assumption).
      rewrite <- Habs. field. assumption. }
    rewrite Hs, <- (toRotationMatrix_scale_sign _ (c / Rabs c) i j Hss).
    set (r := sqrt (Eigen.squaredNorm q)) in *.
    assert (E : forall u, c / Rabs c * (c * u / (Rabs c * r)) = u / r).
    { intros u. transitivity (c / Rabs c * (c / Rabs c) * (u / r));
        [field; split; assumption | rewrite Hss; ring]. }
    unfold Spec.scale; simpl. rewrite !E. reflexivity.
  - assert (Hz : Eigen.squaredNorm q = 0) by lra.
    rewrite Hz, Rmult_0_r.
    destruct (Rlt_dec 0 0) as [Habs | _]; [exfalso; lra |].
    rewrite (squaredNorm_zero q Hz). unfold Spec.scale; simpl Eigen.w; simpl Eigen.x;
      simpl Eigen.y; simpl Eigen.z. rewrite Rmult_0_r. reflexivity.
Qed.

Lemma canonical_Q_square (transform : ftf.StaticTF) :
  Eigen.quat_product (Spec.canonical_Q transform) (Spec.canonical_Q transform)
  = Eigen.Quaternion (-1) 0 0 0.
Proof.
  pose proof inv_sqrt2_sqr as Hs.
  destruct transform; simpl;
    rewrite ?NED_ENU_Q_value, ?AIRCRAFT_BASELINK_Q_value;
    unfold Eigen.quat_product; simpl; f_equal; nra.
Qed.

Lemma quat_product_minus_one_l (q : Eigen.Quaterniond) :
  Eigen.quat_product (Eigen.Quaternion (-1) 0 0 0) q = Spec.opposite q.
Proof.
  destruct q. unfold Eigen.quat_product, Spec.opposite, Spec.scale; simpl. f_equal; ring.
Qed.

Lemma quat_product_minus_one_r (q : Eigen.Quaterniond) :
  Eigen.quat_product q (Eigen.Quaternion (-1) 0 0 0) = Spec.opposite q.
Proof.
  destruct q. unfold Eigen.quat_product, Spec.opposite, Spec.scale; simpl. f_equal; ring.
Qed.

(** An orientation sent through a selector and its reverse comes back as
    the opposite quaternion. *)
Lemma orientation_round_trip (q : Eigen.Quaterniond) (transform : ftf.StaticTF) :
  ftf.detail.transform_orientation (ftf.detail.transform_orientation q transform)
    (Spec.reverse transform)
  = Spec.opposite q.
Proof.
  pose proof (canonical_Q_square transform) as Hsq.
  destruct transform; simpl in *.
  - rewrite <- quat_product_assoc, Hsq. apply quat_product_minus_one_l.
  - rewrite <- quat_product_assoc, Hsq. apply quat_product_minus_one_l.
  - rewrite quat_product_assoc, Hsq. apply quat_product_minus_one_r.
  - rewrite quat_product_assoc, Hsq. apply quat_product_minus_one_r.
Qed.

End Quaternions.

(** ** The dynamic covariance transforms as sandwich products *)

Section Dynamic.

Import ftf ftf.detail.

Lemma frame_Covariance6d_sandwich (cov : Covariance6d) (q : Eigen.Quaterniond) :
  transform_frame_Covariance6d cov q = Spec.sandwich_frame 6 cov q.
Proof.
  apply assign_agree.
  exact (sandwich_agree 6 _ _ _ _ (comma_initializer_tile2 _) (agree_refl _ _)).
Qed.

Lemma frame_Covariance9d_sandwich (cov : Covariance9d) (q : Eigen.Quaterniond) :
  transform_frame_Covariance9d cov q = Spec.sandwich_frame 9 cov q.
Proof.
  apply assign_agree.
  exact (sandwich_agree 9 _ _ _ _ (comma_initializer_tile3 _) (agree_refl _ _)).
Qed.

Lemma sandwich_frame_scale (n : nat) (cov : list R) (c : R) (q : Eigen.Quaterniond) :
  c <> 0 -> Spec.sandwich_frame n cov (Spec.scale c q) = Spec.sandwich_frame n cov q.
Proof.
  intros Hc. apply assign_agree, sandwich_agree; [| apply agree_refl].
  apply agree_pointwise, block_tile_pointwise.
  apply agree_pointwise. intros i j. apply normalized_scale_rotation, Hc.
Qed.

(** Static transforms of size 6 and 9 keep a symmetric covariance symmetric. *)
Lemma static_Covariance6d_symmetric (cov : Covariance6d) (transform : StaticTF) :
  Spec.symmetric 6 cov ->
  Spec.symmetric 6 (transform_static_frame_Covariance6d cov transform).
Proof.
  intros H. rewrite static_Covariance6d_sandwich.
  apply symmetric_assign, sandwich_symmetric, symmetric_Map, H.
Qed.

Lemma static_Covariance9d_symmetric (cov : Covariance9d) (transform : StaticTF) :
  Spec.symmetric 9 cov ->
  Spec.symmetric 9 (transform_static_frame_Covariance9d cov transform).
Proof.
  intros H. rewrite static_Covariance9d_sandwich.
  apply symmetric_assign, sandwich_symmetric, symmetric_Map, H.
Qed.

End Dynamic.

(** ** The transforms on concrete inputs *)

Section Evaluation.

Import ftf ftf.detail.

Ltac cells := repeat (apply f_equal2; [ring |]); reflexivity.

Lemma assign3_cells (M : Eigen.Matrix) :
  Eigen.assign 3 M
  = [M 0 0; M 0 1; M 0 2; M 1 0; M 1 1; M 1 2; M 2 0; M 2 1; M 2 2]%nat.
Proof. reflexivity. Qed.

Lemma static_Covariance3d_diag123 :
  transform_static_frame_Covariance3d Spec.diag123 NED_TO_ENU
  = [0; 1; 0; 2; 0; 0; 0; 0; -3].
Proof.
  rewrite static_Covariance3d_product.
  rewrite (assign_agree 3 _ (Eigen.product 3 (Eigen.Map 3 Spec.diag123) Spec.swap_xy_flip_z))
    by (apply product_agree; [apply agree_refl | apply agree_pointwise, NED_ENU_R_value]).
  rewrite assign3_cells. unfold Eigen.product, Eigen.Map, Spec.diag123, Spec.swap_xy_flip_z.
  cbn [Eigen.sum nth Nat.mul Nat.add]. cells.
Qed.

Lemma sandwich_static_Covariance3d_diag123 :
  Spec.sandwich_static_Covariance3d Spec.diag123 NED_TO_ENU
  = [2; 0; 0; 0; 1; 0; 0; 0; 3].
Proof.
  unfold Spec.sandwich_static_Covariance3d.
  rewrite (assign_agree 3 _ (Spec.sandwich 3 Spec.swap_xy_flip_z (Eigen.Map 3 Spec.diag123)))
    by (apply sandwich_agree; [apply agree_pointwise, NED_ENU_R_value | apply agree_refl]).
  rewrite assign3_cells.
  unfold Spec.sandwich, Eigen.product, Eigen.transpose, Eigen.Map, Spec.diag123,
    Spec.swap_xy_flip_z.
  cbn [Eigen.sum nth Nat.mul Nat.add]. cells.
Qed.

Lemma normalized_unit_X :
  Eigen.normalized (Eigen.Quaternion 0 1 0 0) = Eigen.Quaternion 0 1 0 0.
Proof. apply normalized_unit. unfold Eigen.squaredNorm; simpl. ring. Qed.

Lemma frame_Covariance3d_diag123 :
  transform_frame_Covariance3d Spec.diag123 (Eigen.Quaternion 0 1 0 0)
  = [1; 0; 0; 0; -2; 0; 0; 0; -3].
Proof.
  unfold transform_frame_Covariance3d, Eigen.product_rotation.
  rewrite assign3_cells.
  unfold Eigen.product, Eigen.Map, Spec.diag123, Eigen.toRotationMatrix.
  cbn [Eigen.sum nth Nat.mul Nat.add Eigen.w Eigen.x Eigen.y Eigen.z]. cells.
Qed.

Lemma sandwich_frame_diag123 :
  Spec.sandwich_frame 3 Spec.diag123 (Eigen.Quaternion 0 1 0 0) = Spec.diag123.
Proof.
  unfold Spec.sandwich_frame. rewrite normalized_unit_X, assign3_cells.
  unfold Spec.sandwich, Eigen.product, Eigen.transpose, Eigen.Map, Spec.diag123,
    Spec.block_tile, Eigen.toRotationMatrix.
  cbn [Eigen.sum nth Nat.mul Nat.add Eigen.w Eigen.x Eigen.y Eigen.z
       Nat.div Nat.modulo Nat.divmod Nat.eqb fst snd Nat.sub].
  cells.
Qed.

Lemma NED_ENU_AFFINE_value (a b c : R) :
  Eigen.transform_vector NED_ENU_AFFINE (Eigen.Vector3 a b c) = Eigen.Vector3 b a (- c).
Proof.
  unfold Eigen.transform_vector, NED_ENU_AFFINE, Eigen.Affine3d_of_rotation.
  cbn [Eigen.linear Eigen.translation Eigen.vx Eigen.vy Eigen.vz].
  rewrite !toRotationMatrix_NED_ENU_Q. simpl. f_equal; ring.
Qed.

Lemma AIRCRAFT_BASELINK_AFFINE_value (a b c : R) :
  Eigen.transform_vector AIRCRAFT_BASELINK_AFFINE (Eigen.Vector3 a b c)
  = Eigen.Vector3 a (- b) (- c).
Proof.
  unfold Eigen.transform_vector, AIRCRAFT_BASELINK_AFFINE, Eigen.Affine3d_of_rotation.
  cbn [Eigen.linear Eigen.translation Eigen.vx Eigen.vy Eigen.vz].
  rewrite !toRotationMatrix_AIRCRAFT_BASELINK_Q. simpl. f_equal; ring.
Qed.

Lemma static_Vector3d_round_trip (vec : Eigen.Vector3d) (transform : StaticTF) :
  transform_static_frame_Vector3d (transform_static_frame_Vector3d vec transform)
    (Spec.reverse transform)
  = vec.
Proof.
  destruct vec as [a b c].
  destruct transform; simpl;
    rewrite ?NED_ENU_AFFINE_value, ?AIRCRAFT_BASELINK_AFFINE_value, ?Ropp_involutive;
    reflexivity.
Qed.

Lemma static_Covariance3d_round_trip (cov : Covariance3d) (transform : StaticTF) :
  length cov = 9%nat ->
  transform_static_frame_Covariance3d
    (transform_static_frame_Covariance3d cov transform) (Spec.reverse transform)
  = cov.
Proof.
  intros Hlen. rewrite !static_Covariance3d_product, canonical_R_reverse.
  apply product_round_trip; [exact Hlen | apply canonical_R_square].
Qed.

Lemma static_Covariance6d_round_trip (cov : Covariance6d) (transform : StaticTF) :
  length cov = 36%nat ->
  transform_static_frame_Covariance6d
    (transform_static_frame_Covariance6d cov transform) (Spec.reverse transform)
  = cov.
Proof.
  intros Hlen. rewrite !static_Covariance6d_sandwich, canonical_R_reverse.
  apply sandwich_round_trip;
    [exact Hlen | exact (block_tile_canonical_square 2 transform)
     | apply block_tile_canonical_transpose].
Qed.

Lemma static_Covariance9d_round_trip (cov : Covariance9d) (transform : StaticTF) :
  length cov = 81%nat ->
  transform_static_frame_Covariance9d
    (transform_static_frame_Covariance9d cov transform) (Spec.reverse transform)
  = cov.
Proof.
  intros Hlen. rewrite !static_Covariance9d_sandwich, canonical_R_reverse.
  apply sandwich_round_trip;
    [exact Hlen | exact (block_tile_canonical_square 3 transform)
     | apply block_tile_canonical_transpose].
Qed.

End Evaluation.

(** ** Quaternions inside the range of double *)

Section Ranges.

Lemma in_double_range_near_one (q : Eigen.Quaterniond) :
  / 4 <= Eigen.squaredNorm q <= 4 -> Props.in_double_range q.
Proof.
  intros [Hlo Hhi]. unfold Props.in_double_range.
  assert (H998 : 1 <= 2 ^ 998) by (apply pow_R1_Rle; lra).
  assert (H4 : 4 <= 2 ^ 1000).
  { replace 1000%nat with (2 + 998)%nat by reflexivity. rewrite pow_add.
    replace (2 ^ 2) with 4 by (simpl; ring). lra. }
  split; [| lra].
  apply Rle_trans with (/ 4); [| exact Hlo].
  apply Rinv_le_contravar; lra.
Qed.

Lemma in_double_range_unit (q : Eigen.Quaterniond) :
  Eigen.squaredNorm q = 1 -> Props.in_double_range q.
Proof. intros H. apply in_double_range_near_one. rewrite H. lra. Qed.

Lemma in_double_range_positive (q : Eigen.Quaterniond) :
  Props.in_double_range q -> 0 < Eigen.squaredNorm q.
Proof.
  intros [Hlo _]. apply Rlt_le_trans with (/ 2 ^ 1000); [| exact Hlo].
  apply Rinv_0_lt_compat, pow_lt. lra.
Qed.

Lemma in_double_range_X : Props.in_double_range (Eigen.Quaternion 0 1 0 0).
Proof. apply in_double_range_unit. unfold Eigen.squaredNorm; simpl. ring. Qed.

Lemma in_double_range_Z : Props.in_double_range (Eigen.Quaternion 0 0 0 1).
Proof. apply in_double_range_unit. unfold Eigen.squaredNorm; simpl. ring. Qed.

Lemma in_double_range_X_Z :
  Props.in_double_range
    (Eigen.quat_product (Eigen.Quaternion 0 1 0 0) (Eigen.Quaternion 0 0 0 1)).
Proof. apply in_double_range_unit. unfold Eigen.squaredNorm; simpl. ring. Qed.

Lemma in_double_range_minus_two_X :
  Props.in_double_range (Spec.scale (-2) (Eigen.Quaternion 0 1 0 0)).
Proof.
  apply in_double_range_near_one. unfold Eigen.squaredNorm, Spec.scale; simpl. lra.
Qed.

End Ranges.

(** ** The claims of the specification *)

Section Claims.

Import ftf ftf.detail.

(** C1.  The code departs from the claim: on the diagonal covariance
    (1, 2, 3) and the selector NED_TO_ENU, the static transform of size 3
    returns cov . R, with rows (0 1 0), (2 0 0), (0 0 -3), whereas the
    sandwich product R . cov . Rt of the claim has rows (2 0 0), (0 1 0),
    (0 0 3). *)
Theorem C1_static_Covariance3d_is_right_product :
  transform_static_frame_Covariance3d Spec.diag123 NED_TO_ENU
  = [0; 1; 0; 2; 0; 0; 0; 0; -3]
  /\ Spec.sandwich_static_Covariance3d Spec.diag123 NED_TO_ENU
     = [2; 0; 0; 0; 1; 0; 0; 0; 3]
  /\ transform_static_frame_Covariance3d Spec.diag123 NED_TO_ENU
     <> Spec.sandwich_static_Covariance3d Spec.diag123 NED_TO_ENU.
Proof.
  rewrite static_Covariance3d_diag123, sandwich_static_Covariance3d_diag123.
  repeat split. intros H. injection H as H0 _. lra.
Qed.

(** C2.  The code departs from the claim at size 3: the diagonal covariance
    (1, 2, 3) is symmetric, and its static transform under NED_TO_ENU is
    not (cell (0,1) is 1 and cell (1,0) is 2). *)
Theorem C2_static_Covariance3d_loses_symmetry :
  Spec.symmetric 3 Spec.diag123
  /\ ~ Spec.symmetric 3 (transform_static_frame_Covariance3d Spec.diag123 NED_TO_ENU).
Proof.
  split.
  - intros i j Hi Hj.
    destruct i as [| [| [| i]]]; [| | | lia];
      (destruct j as [| [| [| j]]]; [| | | lia]); reflexivity.
  - intros H. specialize (H 0%nat 1%nat). rewrite static_Covariance3d_diag123 in H.
    simpl in H. assert (Habs : 1 = 2) by (apply H; lia). lra.
Qed.

(** C3 as stated fails for orientations: the identity quaternion sent through
    NED_TO_ENU and then ENU_TO_NED comes back as its opposite. *)
Lemma C3_orientation_round_trip_counterexample :
  transform_orientation (transform_orientation (Eigen.Quaternion 1 0 0 0) NED_TO_ENU)
    (Spec.reverse NED_TO_ENU)
  <> Eigen.Quaternion 1 0 0 0.
Proof.
  rewrite orientation_round_trip. unfold Spec.opposite, Spec.scale; simpl.
  intros H. injection H as Hw _ _ _. lra.
Qed.

(** C3, amended.  A vector and a covariance of size 3, 6 or 9 sent through a
    selector and then through its paired reverse selector come back
    unchanged, in particular the diagonal covariance (1, 2, 3) under
    NED_TO_ENU then ENU_TO_NED; an orientation comes back as the opposite
    quaternion, which has the same rotation matrix. *)
Theorem C3_static_round_trip
    (transform : StaticTF) (q : Eigen.Quaterniond) (vec : Eigen.Vector3d)
    (cov3 : Covariance3d) (cov6 : Covariance6d) (cov9 : Covariance9d) :
  length cov3 = 9%nat -> length cov6 = 36%nat -> length cov9 = 81%nat ->
  transform_orientation (transform_orientation q transform) (Spec.reverse transform)
  = Spec.opposite q
  /\ (forall i j,
        Eigen.toRotationMatrix (Spec.opposite q) i j = Eigen.toRotationMatrix q i j)
  /\ transform_static_frame_Vector3d
       (transform_static_frame_Vector3d vec transform) (Spec.reverse transform)
     = vec
  /\ transform_static_frame_Covariance3d
       (transform_static_frame_Covariance3d cov3 transform) (Spec.reverse transform)
     = cov3
  /\ transform_static_frame_Covariance6d
       (transform_static_frame_Covariance6d cov6 transform) (Spec.reverse transform)
     = cov6
  /\ transform_static_frame_Covariance9d
       (transform_static_frame_Covariance9d cov9 transform) (Spec.reverse transform)
     = cov9
  /\ transform_static_frame_Covariance3d
       (transform_static_frame_Covariance3d Spec.diag123 NED_TO_ENU) ENU_TO_NED
     = Spec.diag123.
Proof.
  intros H3 H6 H9. repeat split.
  - apply orientation_round_trip.
  - intros i j. apply toRotationMatrix_scale_sign. ring.
  - apply static_Vector3d_round_trip.
  - apply static_Covariance3d_round_trip, H3.
  - apply static_Covariance6d_round_trip, H6.
  - apply static_Covariance9d_round_trip, H9.
  - apply (static_Covariance3d_round_trip Spec.diag123 NED_TO_ENU). reflexivity.
Qed.

Lemma C3_static_round_trip_witness :
  length Spec.diag123 = 9%nat
  /\ length (repeat 0 36) = 36%nat
  /\ length (repeat 0 81) = 81%nat
  /\ transform_static_frame_Vector3d
       (transform_static_frame_Vector3d (Eigen.Vector3 0 1 0) AIRCRAFT_TO_BASELINK)
       BASELINK_TO_AIRCRAFT
     = Eigen.Vector3 0 1 0
  /\ transform_static_frame_Covariance6d
       (transform_static_frame_Covariance6d (repeat 0 36) AIRCRAFT_TO_BASELINK)
       BASELINK_TO_AIRCRAFT
     = repeat 0 36.
Proof.
  repeat (split; [reflexivity |]).
  pose proof (C3_static_round_trip AIRCRAFT_TO_BASELINK (Eigen.Quaternion 1 0 0 0)
                (Eigen.Vector3 0 1 0) Spec.diag123 (repeat 0 36) (repeat 0 81)
                eq_refl eq_refl eq_refl) as (_ & _ & Hv & _ & H6 & _).
  split; [exact Hv | exact H6].
Defined.

(** C4.  The dynamic covariance transform given the canonical NED/ENU
    quaternion returns what the static transform returns for NED_TO_ENU, at
    sizes 3, 6 and 9. *)
Theorem C4_dynamic_with_NED_ENU_Q_is_static
    (cov3 : Covariance3d) (cov6 : Covariance6d) (cov9 : Covariance9d) :
  transform_frame_Covariance3d cov3 NED_ENU_Q
  = transform_static_frame_Covariance3d cov3 NED_TO_ENU
  /\ transform_frame_Covariance6d cov6 NED_ENU_Q
     = transform_static_frame_Covariance6d cov6 NED_TO_ENU
  /\ transform_frame_Covariance9d cov9 NED_ENU_Q
     = transform_static_frame_Covariance9d cov9 NED_TO_ENU.
Proof. repeat split; reflexivity. Qed.

(** C5.  The orientation transform multiplies by the canonical NED/ENU
    quaternion on the left for NED_TO_ENU and ENU_TO_NED, and by the
    canonical aircraft/base-link quaternion on the right for
    AIRCRAFT_TO_BASELINK and BASELINK_TO_AIRCRAFT. *)
Theorem C5_orientation_multiplication_side (q : Eigen.Quaterniond) :
  transform_orientation q NED_TO_ENU = Eigen.quat_product NED_ENU_Q q
  /\ transform_orientation q ENU_TO_NED = Eigen.quat_product NED_ENU_Q q
  /\ transform_orientation q AIRCRAFT_TO_BASELINK = Eigen.quat_product q AIRCRAFT_BASELINK_Q
  /\ transform_orientation q BASELINK_TO_AIRCRAFT = Eigen.quat_product q AIRCRAFT_BASELINK_Q.
Proof. repeat split; reflexivity. Qed.

(** C6.  The code departs from the claim at size 3: on the diagonal
    covariance (1, 2, 3) and the unit quaternion (w, x, y, z) = (0, 1, 0, 0)
    the dynamic transform returns cov . R, the diagonal (1, -2, -3), whereas
    the sandwich product of the claim gives back the diagonal (1, 2, 3). *)
Theorem C6_frame_Covariance3d_is_right_product :
  transform_frame_Covariance3d Spec.diag123 (Eigen.Quaternion 0 1 0 0)
  = [1; 0; 0; 0; -2; 0; 0; 0; -3]
  /\ Spec.sandwich_frame 3 Spec.diag123 (Eigen.Quaternion 0 1 0 0) = Spec.diag123
  /\ transform_frame_Covariance3d Spec.diag123 (Eigen.Quaternion 0 1 0 0)
     <> Spec.sandwich_frame 3 Spec.diag123 (Eigen.Quaternion 0 1 0 0).
Proof.
  rewrite frame_Covariance3d_diag123, sandwich_frame_diag123.
  repeat split. unfold Spec.diag123. intros H. injection H as H4 _. lra.
Qed.

(** C7.  The orientation transform of a quaternion of norm one has norm
    one, for every selector. *)
Theorem C7_orientation_keeps_unit_norm (q : Eigen.Quaterniond) (transform : StaticTF) :
  Eigen.norm q = 1 -> Eigen.norm (transform_orientation q transform) = 1.
Proof.
  unfold Eigen.norm. intros H.
  destruct transform; simpl; rewrite squaredNorm_product,
    ?squaredNorm_NED_ENU_Q, ?squaredNorm_AIRCRAFT_BASELINK_Q, ?Rmult_1_l, ?Rmult_1_r;
    exact H.
Qed.

Lemma C7_orientation_keeps_unit_norm_witness :
  Eigen.norm (Eigen.Quaternion 1 0 0 0) = 1
  /\ Eigen.norm (transform_orientation (Eigen.Quaternion 1 0 0 0) AIRCRAFT_TO_BASELINK) = 1.
Proof.
  assert (H : Eigen.norm (Eigen.Quaternion 1 0 0 0) = 1).
  { unfold Eigen.norm, Eigen.squaredNorm; simpl.
    replace (0 * 0 + 0 * 0 + 0 * 0 + 1 * 1) with 1 by ring. apply sqrt_1. }
  split; [exact H | exact (C7_orientation_keeps_unit_norm _ AIRCRAFT_TO_BASELINK H)].
Defined.

(** C8.  For an orientation, a vector and a covariance of size 3, 6 or 9,
    the two selectors of a frame pair give the same result. *)
Theorem C8_direction_is_informational
    (q : Eigen.Quaterniond) (vec : Eigen.Vector3d)
    (cov3 : Covariance3d) (cov6 : Covariance6d) (cov9 : Covariance9d) :
  (transform_orientation q NED_TO_ENU = transform_orientation q ENU_TO_NED
   /\ transform_orientation q AIRCRAFT_TO_BASELINK
      = transform_orientation q BASELINK_TO_AIRCRAFT)
  /\ (transform_static_frame_Vector3d vec NED_TO_ENU
      = transform_static_frame_Vector3d vec ENU_TO_NED
      /\ transform_static_frame_Vector3d vec AIRCRAFT_TO_BASELINK
         = transform_static_frame_Vector3d vec BASELINK_TO_AIRCRAFT)
  /\ (transform_static_frame_Covariance3d cov3 NED_TO_ENU
      = transform_static_frame_Covariance3d cov3 ENU_TO_NED
      /\ transform_static_frame_Covariance3d cov3 AIRCRAFT_TO_BASELINK
         = transform_static_frame_Covariance3d cov3 BASELINK_TO_AIRCRAFT)
  /\ (transform_static_frame_Covariance6d cov6 NED_TO_ENU
      = transform_static_frame_Covariance6d cov6 ENU_TO_NED
      /\ transform_static_frame_Covariance6d cov6 AIRCRAFT_TO_BASELINK
         = transform_static_frame_Covariance6d cov6 BASELINK_TO_AIRCRAFT)
  /\ (transform_static_frame_Covariance9d cov9 NED_TO_ENU
      = transform_static_frame_Covariance9d cov9 ENU_TO_NED
      /\ transform_static_frame_Covariance9d cov9 AIRCRAFT_TO_BASELINK
         = transform_static_frame_Covariance9d cov9 BASELINK_TO_AIRCRAFT).
Proof. repeat split; reflexivity. Qed.

(** C9.  The static vector transform sends (x, y, z) to (x, -y, -z) for the
    aircraft/base-link selectors, so (0, 1, 0) to (0, -1, 0), and to
    (y, x, -z) for the NED/ENU selectors. *)
Theorem C9_static_Vector3d_values (x y z : R) :
  transform_static_frame_Vector3d (Eigen.Vector3 x y z) AIRCRAFT_TO_BASELINK
  = Eigen.Vector3 x (- y) (- z)
  /\ transform_static_frame_Vector3d (Eigen.Vector3 x y z) BASELINK_TO_AIRCRAFT
     = Eigen.Vector3 x (- y) (- z)
  /\ transform_static_frame_Vector3d (Eigen.Vector3 0 1 0) AIRCRAFT_TO_BASELINK
     = Eigen.Vector3 0 (-1) 0
  /\ transform_static_frame_Vector3d (Eigen.Vector3 x y z) NED_TO_ENU
     = Eigen.Vector3 y x (- z)
  /\ transform_static_frame_Vector3d (Eigen.Vector3 x y z) ENU_TO_NED
     = Eigen.Vector3 y x (- z).
Proof.
  repeat split; simpl;
    rewrite ?NED_ENU_AFFINE_value, ?AIRCRAFT_BASELINK_AFFINE_value; try reflexivity.
  f_equal; ring.
Qed.

(** In binary64 too, a scalar that keeps the squared norm in range changes
    nothing: the half turn about X and -2 times it give the same array. *)
Lemma double_scale_minus_two :
  Double.transform_frame_Covariance6d Double.ramp
    (Double.scale Double.minus_two Double.half_turn_X)
  = Double.transform_frame_Covariance6d Double.ramp Double.half_turn_X.
Proof. vm_compute. reflexivity. Qed.

(** C10 as stated fails in binary64: for q the half turn about X and the
    scalar c = 2^-700, the squared norm of c * q underflows to zero, the
    quaternion is left as it is, its rotation matrix is the identity and the
    6 x 6 array 1, 2, ..., 36 comes back unchanged, whereas q itself negates
    its second cell. *)
Lemma C10_scaled_quaternion_counterexample :
  Double.transform_frame_Covariance6d Double.ramp
    (Double.scale Double.tiny Double.half_turn_X)
  = Double.ramp
  /\ Double.transform_frame_Covariance6d Double.ramp
       (Double.scale Double.tiny Double.half_turn_X)
     <> Double.transform_frame_Covariance6d Double.ramp Double.half_turn_X.
Proof.
  split.
  - vm_compute. reflexivity.
  - intros H. apply (f_equal (Double.negative_cell 1)) in H.
    vm_compute in H. discriminate H.
Qed.

(** C10, amended.  At sizes 6 and 9 the dynamic covariance transform returns
    the same array for a quaternion q and for c * q, c a non-zero real,
    when the squared norms of q and of c * q are inside the range of double
    (between 2^-1000 and 2^1000); the equality is the one of exact
    arithmetic, which the program has up to rounding. *)
Theorem C10_dynamic_scale_invariant
    (cov6 : Covariance6d) (cov9 : Covariance9d) (q : Eigen.Quaterniond) (c : R) :
  c <> 0 ->
  Props.in_double_range q -> Props.in_double_range (Spec.scale c q) ->
  transform_frame_Covariance6d cov6 (Spec.scale c q) = transform_frame_Covariance6d cov6 q
  /\ transform_frame_Covariance9d cov9 (Spec.scale c q)
     = transform_frame_Covariance9d cov9 q.
Proof.
  intros Hc _ _. split.
  - rewrite !frame_Covariance6d_sandwich. apply sandwich_frame_scale, Hc.
  - rewrite !frame_Covariance9d_sandwich. apply sandwich_frame_scale, Hc.
Qed.

Lemma C10_dynamic_scale_invariant_witness :
  -2 <> 0
  /\ Props.in_double_range (Eigen.Quaternion 0 1 0 0)
  /\ Props.in_double_range (Spec.scale (-2) (Eigen.Quaternion 0 1 0 0))
  /\ transform_frame_Covariance6d (repeat 1 36) (Spec.scale (-2) (Eigen.Quaternion 0 1 0 0))
     = transform_frame_Covariance6d (repeat 1 36) (Eigen.Quaternion 0 1 0 0)
  /\ transform_frame_Covariance9d (repeat 1 81) (Spec.scale (-2) (Eigen.Quaternion 0 1 0 0))
     = transform_frame_Covariance9d (repeat 1 81) (Eigen.Quaternion 0 1 0 0).
Proof.
  assert (H : -2 <> 0) by lra.
  split; [exact H |]. split; [exact in_double_range_X |].
  split; [exact in_double_range_minus_two_X |].
  exact (C10_dynamic_scale_invariant (repeat 1 36) (repeat 1 81)
           (Eigen.Quaternion 0 1 0 0) (-2) H in_double_range_X in_double_range_minus_two_X).
Defined.

End Claims.

(** ** Unit quaternions and their rotation matrices *)

Section UnitQuaternions.

Ltac entries i j :=
  destruct i as [| [| [| i]]]; destruct j as [| [| [| j]]]; simpl.

Ltac entries3 i j :=
  destruct i as [| [| [| i]]]; [| | | lia];
  (destruct j as [| [| [| j]]]; [| | | lia]).

Lemma toRotationMatrix_unit (q : Eigen.Quaterniond) (i j : nat) :
  Eigen.squaredNorm q = 1 -> Eigen.toRotationMatrix q i j = Props.homogeneous q i j.
Proof.
  destruct q as [a b c d]. unfold Eigen.squaredNorm, Eigen.toRotationMatrix, Props.homogeneous.
  simpl. intros H. entries i j; nra.
Qed.

Lemma homogeneous_product (p q : Eigen.Quaterniond) :
  Spec.agree 3 (Props.homogeneous (Eigen.quat_product p q))
    (Eigen.product 3 (Props.homogeneous p) (Props.homogeneous q)).
Proof.
  intros i j Hi Hj. destruct p as [a b c d], q as [a' b' c' d'].
  unfold Eigen.product, Eigen.quat_product. cbn [Eigen.sum].
  entries3 i j; simpl; ring.
Qed.

Lemma homogeneous_orthogonal (q : Eigen.Quaterniond) (i j : nat) :
  (i < 3)%nat -> (j < 3)%nat ->
  Eigen.product 3 (Props.homogeneous q) (Eigen.transpose (Props.homogeneous q)) i j
  = Eigen.squaredNorm q * Eigen.squaredNorm q * Eigen.Identity i j.
Proof.
  intros Hi Hj. destruct q as [a b c d].
  unfold Eigen.product, Eigen.transpose, Eigen.squaredNorm, Eigen.Identity. cbn [Eigen.sum].
  entries3 i j; simpl; ring.
Qed.

Lemma toRotationMatrix_conjugate (q : Eigen.Quaterniond) (i j : nat) :
  Eigen.toRotationMatrix (Props.conjugate q) i j
  = Eigen.transpose (Eigen.toRotationMatrix q) i j.
Proof.
  destruct q as [a b c d]. unfold Eigen.transpose, Eigen.toRotationMatrix, Props.conjugate.
  entries i j; ring.
Qed.

Lemma squaredNorm_conjugate (q : Eigen.Quaterniond) :
  Eigen.squaredNorm (Props.conjugate q) = Eigen.squaredNorm q.
Proof. destruct q. unfold Eigen.squaredNorm, Props.conjugate; simpl. ring. Qed.

(** The rotation matrix of a product of unit quaternions is the product of
    their rotation matrices. *)
Lemma toRotationMatrix_product (p q : Eigen.Quaterniond) :
  Eigen.squaredNorm p = 1 -> Eigen.squaredNorm q = 1 ->
  Spec.agree 3 (Eigen.toRotationMatrix (Eigen.quat_product p q))
    (Eigen.product 3 (Eigen.toRotationMatrix p) (Eigen.toRotationMatrix q)).
Proof.
  intros Hp Hq.
  assert (Hpq : Eigen.squaredNorm (Eigen.quat_product p q) = 1)
    by (rewrite squaredNorm_product, Hp, Hq; ring).
  apply agree_trans with (Props.homogeneous (Eigen.quat_product p q)).
  - apply agree_pointwise. intros i j. apply toRotationMatrix_unit, Hpq.
  - apply agree_trans with (Eigen.product 3 (Props.homogeneous p) (Props.homogeneous q)).
    + apply homogeneous_product.
    + apply product_agree; apply agree_pointwise; intros i j; symmetry;
        apply toRotationMatrix_unit; assumption.
Qed.

(** The rotation matrix of a unit quaternion is orthogonal. *)
Lemma toRotationMatrix_orthogonal (q : Eigen.Quaterniond) :
  Eigen.squaredNorm q = 1 ->
  Spec.agree 3
    (Eigen.product 3 (Eigen.toRotationMatrix q) (Eigen.transpose (Eigen.toRotationMatrix q)))
    Eigen.Identity.
Proof.
  intros Hq.
  apply agree_trans
    with (Eigen.product 3 (Props.homogeneous q) (Eigen.transpose (Props.homogeneous q))).
  - apply product_agree; [| apply transpose_agree]; apply agree_pointwise;
      intros i j; apply toRotationMatrix_unit, Hq.
  - intros i j Hi Hj. rewrite homogeneous_orthogonal, Hq by assumption. ring.
Qed.

Lemma toRotationMatrix_orthogonal_l (q : Eigen.Quaterniond) :
  Eigen.squaredNorm q = 1 ->
  Spec.agree 3
    (Eigen.product 3 (Eigen.transpose (Eigen.toRotationMatrix q)) (Eigen.toRotationMatrix q))
    Eigen.Identity.
Proof.
  intros Hq.
  pose proof (toRotationMatrix_orthogonal (Props.conjugate q)) as H.
  rewrite squaredNorm_conjugate in H. specialize (H Hq).
  eapply agree_trans; [| exact H].
  apply product_agree; [| apply transpose_agree]; apply agree_pointwise; intros i j;
    symmetry; apply toRotationMatrix_conjugate.
Qed.

(** Normalising a non-zero quaternion gives a unit quaternion. *)
Lemma squaredNorm_normalized (q : Eigen.Quaterniond) :
  0 < Eigen.squaredNorm q -> Eigen.squaredNorm (Eigen.normalized q) = 1.
Proof.
  intros Hq. unfold Eigen.normalized.
  destruct (Rlt_dec 0 (Eigen.squaredNorm q)) as [_ | Hn]; [| contradiction].
  pose proof (sqrt_sqrt (Eigen.squaredNorm q) (Rlt_le _ _ Hq)) as Hs.
  assert (Hr : sqrt (Eigen.squaredNorm q) <> 0) by (apply Rgt_not_eq, sqrt_lt_R0; assumption).
  set (r := sqrt (Eigen.squaredNorm q)) in *.
  unfold Eigen.squaredNorm at 1. cbn [Eigen.w Eigen.x Eigen.y Eigen.z].
  transitivity (Eigen.squaredNorm q / (r * r)).
  - unfold Eigen.squaredNorm. field. assumption.
  - rewrite Hs. field. lra.
Qed.

Lemma normalized_conjugate (q : Eigen.Quaterniond) :
  Eigen.normalized (Props.conjugate q) = Props.conjugate (Eigen.normalized q).
Proof.
  unfold Eigen.normalized. rewrite squaredNorm_conjugate.
  destruct (Rlt_dec 0 (Eigen.squaredNorm q)); [| reflexivity].
  destruct q as [a b c d]. unfold Props.conjugate; simpl. f_equal; unfold Rdiv; ring.
Qed.

Lemma normalized_product (p q : Eigen.Quaterniond) :
  0 < Eigen.squaredNorm p -> 0 < Eigen.squaredNorm q ->
  Eigen.normalized (Eigen.quat_product p q)
  = Eigen.quat_product (Eigen.normalized p) (Eigen.normalized q).
Proof.
  intros Hp Hq. unfold Eigen.normalized. rewrite squaredNorm_product.
  destruct (Rlt_dec 0 (Eigen.squaredNorm p)) as [_ | Hn]; [| contradiction].
  destruct (Rlt_dec 0 (Eigen.squaredNorm q)) as [_ | Hn]; [| contradiction].
  destruct (Rlt_dec 0 (Eigen.squaredNorm p * Eigen.squaredNorm q)) as [_ | Hn];
    [| exfalso; apply Hn, Rmult_lt_0_compat; assumption].
  rewrite sqrt_mult by lra.
  assert (Hrp : sqrt (Eigen.squaredNorm p) <> 0) by (apply Rgt_not_eq, sqrt_lt_R0; assumption).
  assert (Hrq : sqrt (Eigen.squaredNorm q) <> 0) by (apply Rgt_not_eq, sqrt_lt_R0; assumption).
  set (rp := sqrt (Eigen.squaredNorm p)) in *. set (rq := sqrt (Eigen.squaredNorm q)) in *.
  destruct p as [a b c d], q as [a' b' c' d'].
  unfold Eigen.quat_product; simpl. f_equal; field; split; assumption.
Qed.

End UnitQuaternions.

(** ** Vectors under a caller-supplied rotation *)

Section Vectors.

Import ftf ftf.detail.

Lemma transform_vector_agree (A B : Eigen.Matrix) (t v : Eigen.Vector3d) :
  Spec.agree 3 A B ->
  Eigen.transform_vector (Eigen.Affine A t) v = Eigen.transform_vector (Eigen.Affine B t) v.
Proof.
  intros H. unfold Eigen.transform_vector. cbn [Eigen.linear Eigen.translation].
  rewrite !H by lia. reflexivity.
Qed.

Lemma transform_vector_product (A B : Eigen.Matrix) (v : Eigen.Vector3d) :
  Eigen.transform_vector (Eigen.Affine A (Eigen.Vector3 0 0 0))
    (Eigen.transform_vector (Eigen.Affine B (Eigen.Vector3 0 0 0)) v)
  = Eigen.transform_vector (Eigen.Affine (Eigen.product 3 A B) (Eigen.Vector3 0 0 0)) v.
Proof.
  destruct v as [a b c]. unfold Eigen.transform_vector, Eigen.product.
  cbn [Eigen.linear Eigen.translation Eigen.vx Eigen.vy Eigen.vz Eigen.sum].
  f_equal; ring.
Qed.

Lemma transform_vector_Identity (v : Eigen.Vector3d) :
  Eigen.transform_vector (Eigen.Affine Eigen.Identity (Eigen.Vector3 0 0 0)) v = v.
Proof.
  destruct v as [a b c]. unfold Eigen.transform_vector, Eigen.Identity.
  cbn [Eigen.linear Eigen.translation Eigen.vx Eigen.vy Eigen.vz Nat.eqb].
  f_equal; ring.
Qed.

Lemma frame_Vector3d_product (vec : Eigen.Vector3d) (p q : Eigen.Quaterniond) :
  Eigen.squaredNorm p = 1 -> Eigen.squaredNorm q = 1 ->
  transform_frame_Vector3d vec (Eigen.quat_product p q)
  = transform_frame_Vector3d (transform_frame_Vector3d vec q) p.
Proof.
  intros Hp Hq. unfold transform_frame_Vector3d, Eigen.Affine3d_of_rotation.
  rewrite transform_vector_product.
  apply transform_vector_agree, toRotationMatrix_product; assumption.
Qed.

Lemma frame_Vector3d_homogeneous (vec : Eigen.Vector3d) (q : Eigen.Quaterniond) :
  Eigen.squaredNorm q = 1 ->
  transform_frame_Vector3d vec q
  = Eigen.transform_vector (Eigen.Affine (Props.homogeneous q) (Eigen.Vector3 0 0 0)) vec.
Proof.
  intros Hq. apply transform_vector_agree, agree_pointwise.
  intros i j. apply toRotationMatrix_unit, Hq.
Qed.

Lemma homogeneous_dot (u v : Eigen.Vector3d) (q : Eigen.Quaterniond) :
  Props.dot
    (Eigen.transform_vector (Eigen.Affine (Props.homogeneous q) (Eigen.Vector3 0 0 0)) u)
    (Eigen.transform_vector (Eigen.Affine (Props.homogeneous q) (Eigen.Vector3 0 0 0)) v)
  = Eigen.squaredNorm q * Eigen.squaredNorm q * Props.dot u v.
Proof.
  destruct u as [a b c], v as [a' b' c'], q as [e f g h].
  unfold Props.dot, Eigen.transform_vector, Eigen.squaredNorm, Props.homogeneous.
  cbn [Eigen.linear Eigen.translation Eigen.vx Eigen.vy Eigen.vz
       Eigen.w Eigen.x Eigen.y Eigen.z].
  ring.
Qed.

Lemma unit_X : Eigen.squaredNorm (Eigen.Quaternion 0 1 0 0) = 1.
Proof. unfold Eigen.squaredNorm; simpl. ring. Qed.

Lemma unit_Z : Eigen.squaredNorm (Eigen.Quaternion 0 0 0 1) = 1.
Proof. unfold Eigen.squaredNorm; simpl. ring. Qed.

(** X1.  Rotating a vector by q and then by p is rotating it by the product
    p * q, for unit quaternions p and q. *)
Theorem X1_frame_Vector3d_compose (vec : Eigen.Vector3d) (p q : Eigen.Quaterniond) :
  Eigen.squaredNorm p = 1 -> Eigen.squaredNorm q = 1 ->
  transform_frame_Vector3d (transform_frame_Vector3d vec q) p
  = transform_frame_Vector3d vec (Eigen.quat_product p q).
Proof. intros Hp Hq. symmetry. apply frame_Vector3d_product; assumption. Qed.

Lemma X1_frame_Vector3d_compose_witness :
  Eigen.squaredNorm (Eigen.Quaternion 0 1 0 0) = 1
  /\ Eigen.squaredNorm (Eigen.Quaternion 0 0 0 1) = 1
  /\ transform_frame_Vector3d
       (transform_frame_Vector3d (Eigen.Vector3 1 2 3) (Eigen.Quaternion 0 0 0 1))
       (Eigen.Quaternion 0 1 0 0)
     = transform_frame_Vector3d (Eigen.Vector3 1 2 3)
         (Eigen.quat_product (Eigen.Quaternion 0 1 0 0) (Eigen.Quaternion 0 0 0 1)).
Proof.
  split; [exact unit_X |]. split; [exact unit_Z |].
  exact (X1_frame_Vector3d_compose (Eigen.Vector3 1 2 3) _ _ unit_X unit_Z).
Defined.

(** X2.  For a unit quaternion q, rotating a vector by q and then by the
    conjugate of q gives the vector back. *)
Theorem X2_frame_Vector3d_conjugate_undoes (vec : Eigen.Vector3d) (q : Eigen.Quaterniond) :
  Eigen.squaredNorm q = 1 ->
  transform_frame_Vector3d (transform_frame_Vector3d vec q) (Props.conjugate q) = vec.
Proof.
  intros Hq. unfold transform_frame_Vector3d, Eigen.Affine3d_of_rotation.
  rewrite transform_vector_product.
  rewrite <- (transform_vector_Identity vec) at 2.
  apply transform_vector_agree.
  eapply agree_trans; [| apply toRotationMatrix_orthogonal_l, Hq].
  apply product_agree; [| apply agree_refl].
  apply agree_pointwise, toRotationMatrix_conjugate.
Qed.

Lemma X2_frame_Vector3d_conjugate_undoes_witness :
  Eigen.squaredNorm (Eigen.Quaternion 0 0 0 1) = 1
  /\ transform_frame_Vector3d
       (transform_frame_Vector3d (Eigen.Vector3 1 2 3) (Eigen.Quaternion 0 0 0 1))
       (Props.conjugate (Eigen.Quaternion 0 0 0 1))
     = Eigen.Vector3 1 2 3.
Proof.
  split; [exact unit_Z |].
  exact (X2_frame_Vector3d_conjugate_undoes (Eigen.Vector3 1 2 3) _ unit_Z).
Defined.

(** X3.  For a unit quaternion, the vector transform keeps dot products, so
    lengths and angles. *)
Theorem X3_frame_Vector3d_keeps_dot (u v : Eigen.Vector3d) (q : Eigen.Quaterniond) :
  Eigen.squaredNorm q = 1 ->
  Props.dot (transform_frame_Vector3d u q) (transform_frame_Vector3d v q) = Props.dot u v.
Proof.
  intros Hq. rewrite !frame_Vector3d_homogeneous by assumption.
  rewrite homogeneous_dot, Hq. ring.
Qed.

Lemma X3_frame_Vector3d_keeps_dot_witness :
  Eigen.squaredNorm (Eigen.Quaternion 0 0 0 1) = 1
  /\ Props.dot (transform_frame_Vector3d (Eigen.Vector3 1 2 3) (Eigen.Quaternion 0 0 0 1))
       (transform_frame_Vector3d (Eigen.Vector3 4 5 6) (Eigen.Quaternion 0 0 0 1))
     = Props.dot (Eigen.Vector3 1 2 3) (Eigen.Vector3 4 5 6).
Proof.
  split; [exact unit_Z |].
  exact (X3_frame_Vector3d_keeps_dot (Eigen.Vector3 1 2 3) (Eigen.Vector3 4 5 6) _ unit_Z).
Defined.

(** X4.  The two multiplication sides of the orientation transform, seen on
    vectors, for a unit orientation q: with a NED/ENU selector, rotating by
    the transformed orientation is rotating by q and then applying the static
    vector transform; with an aircraft/base-link selector, it is applying
    the static vector transform first and then rotating by q. *)
Theorem X4_orientation_acts_on_vectors
    (vec : Eigen.Vector3d) (q : Eigen.Quaterniond) (transform : StaticTF) :
  Eigen.squaredNorm q = 1 ->
  transform_frame_Vector3d vec (transform_orientation q transform)
  = match transform with
    | NED_TO_ENU | ENU_TO_NED =>
        transform_static_frame_Vector3d (transform_frame_Vector3d vec q) transform
    | AIRCRAFT_TO_BASELINK | BASELINK_TO_AIRCRAFT =>
        transform_frame_Vector3d (transform_static_frame_Vector3d vec transform) q
    end.
Proof.
  intros Hq.
  destruct transform; simpl;
    apply frame_Vector3d_product;
    auto using squaredNorm_NED_ENU_Q, squaredNorm_AIRCRAFT_BASELINK_Q.
Qed.

Lemma X4_orientation_acts_on_vectors_witness :
  Eigen.squaredNorm (Eigen.Quaternion 0 0 0 1) = 1
  /\ transform_frame_Vector3d (Eigen.Vector3 1 2 3)
       (transform_orientation (Eigen.Quaternion 0 0 0 1) AIRCRAFT_TO_BASELINK)
     = transform_frame_Vector3d
         (transform_static_frame_Vector3d (Eigen.Vector3 1 2 3) AIRCRAFT_TO_BASELINK)
         (Eigen.Quaternion 0 0 0 1).
Proof.
  split; [exact unit_Z |].
  exact (X4_orientation_acts_on_vectors (Eigen.Vector3 1 2 3) _ AIRCRAFT_TO_BASELINK unit_Z).
Defined.

End Vectors.

(** ** Orientations *)

Section Orientations.

Import ftf ftf.detail.

(** X5.  Orientation transforms commute: two selectors of one family apply
    the same multiplication, and a NED/ENU selector multiplies on the left
    while an aircraft/base-link selector multiplies on the right. *)
Theorem X5_orientation_transforms_commute
    (q : Eigen.Quaterniond) (first second : StaticTF) :
  transform_orientation (transform_orientation q first) second
  = transform_orientation (transform_orientation q second) first.
Proof.
  destruct first, second; simpl; try reflexivity;
    rewrite quat_product_assoc; reflexivity.
Qed.

(** X6.  The coefficients of a transformed orientation (w, x, y, z): the
    aircraft/base-link selectors return (-x, w, z, -y), the NED/ENU selectors
    return (-(x + y), w + z, w - z, y - x) divided by the square root
    of 2. *)
Theorem X6_orientation_coefficients (a b c d : R) (transform : StaticTF) :
  transform_orientation (Eigen.Quaternion a b c d) transform
  = match transform with
    | NED_TO_ENU | ENU_TO_NED =>
        Eigen.Quaternion (- (b + c) / sqrt 2) ((a + d) / sqrt 2)
          ((a - d) / sqrt 2) ((c - b) / sqrt 2)
    | AIRCRAFT_TO_BASELINK | BASELINK_TO_AIRCRAFT => Eigen.Quaternion (- b) a d (- c)
    end.
Proof.
  destruct transform; simpl;
    rewrite ?NED_ENU_Q_value, ?AIRCRAFT_BASELINK_Q_value;
    unfold Eigen.quat_product, Rdiv; simpl; f_equal; ring.
Qed.

(** X7.  The orientation transform keeps the squared norm of every
    quaternion, unit or not: it never rescales its input. *)
Theorem X7_orientation_keeps_squaredNorm (q : Eigen.Quaterniond) (transform : StaticTF) :
  Eigen.squaredNorm (transform_orientation q transform) = Eigen.squaredNorm q.
Proof.
  destruct transform; simpl;
    rewrite squaredNorm_product, ?squaredNorm_NED_ENU_Q, ?squaredNorm_AIRCRAFT_BASELINK_Q;
    ring.
Qed.

End Orientations.

(** ** Traces, identities and compositions of sandwich products *)

Section SandwichAlgebra.

Import Eigen.

Lemma Identity_transpose (i j : nat) : transpose Identity i j = Identity i j.
Proof. unfold transpose, Identity. rewrite Nat.eqb_sym. reflexivity. Qed.

Lemma sandwich_Identity (n : nat) (C : Matrix) :
  Spec.agree n (Spec.sandwich n Identity C) C.
Proof.
  unfold Spec.sandwich.
  apply agree_trans with (product n C Identity).
  - apply product_agree; [apply product_Identity_l | apply agree_pointwise, Identity_transpose].
  - apply product_Identity_r.
Qed.

(** Two sandwiches in a row are the sandwich by the product. *)
Lemma sandwich_compose (n : nat) (A B C : Matrix) :
  Spec.agree n (Spec.sandwich n A (Spec.sandwich n B C)) (Spec.sandwich n (product n A B) C).
Proof.
  unfold Spec.sandwich.
  apply agree_trans
    with (product n (product n (product n A (product n B C)) (transpose B)) (transpose A)).
  { apply product_agree; [| apply agree_refl].
    apply agree_sym, agree_pointwise, product_assoc. }
  apply agree_trans
    with (product n (product n A (product n B C)) (product n (transpose B) (transpose A))).
  { apply agree_pointwise, product_assoc. }
  apply product_agree.
  - apply agree_sym, agree_pointwise, product_assoc.
  - apply agree_sym, agree_pointwise, transpose_product.
Qed.

Lemma trace_agree (n : nat) (A B : Matrix) :
  Spec.agree n A B -> sum n (fun i => A i i) = sum n (fun i => B i i).
Proof. intros H. apply sum_ext. intros i Hi. apply H; assumption. Qed.

Lemma trace_product_comm (n : nat) (A B : Matrix) :
  sum n (fun i => product n A B i i) = sum n (fun i => product n B A i i).
Proof.
  unfold product. rewrite sum_swap. apply sum_ext; intros k _.
  apply sum_ext; intros i _. ring.
Qed.

(** The sandwich by a matrix with Rt . R = 1 keeps the trace. *)
Lemma trace_sandwich (n : nat) (Rot C : Matrix) :
  Spec.agree n (product n (transpose Rot) Rot) Identity ->
  sum n (fun i => Spec.sandwich n Rot C i i) = sum n (fun i => C i i).
Proof.
  intros H. unfold Spec.sandwich. rewrite trace_product_comm.
  apply trace_agree.
  apply agree_trans with (product n (product n (transpose Rot) Rot) C).
  - apply agree_sym, agree_pointwise, product_assoc.
  - apply agree_trans with (product n Identity C).
    + apply product_agree; [exact H | apply agree_refl].
    + apply product_Identity_l.
Qed.

Lemma trace_assign (n : nat) (M : Matrix) :
  Props.trace n (assign n M) = sum n (fun i => M i i).
Proof. unfold Props.trace. apply trace_agree, Map_assign. Qed.

(** Products by a tiled matrix, row by row and column by column. *)
Lemma block_tile_product_l (k : nat) (A C : Matrix) (i j : nat) :
  (i < 3 * k)%nat ->
  product (3 * k) (Spec.block_tile A) C i j
  = sum 3 (fun r => A (i mod 3)%nat r * C (3 * (i / 3) + r)%nat j).
Proof.
  intros Hi. unfold product. rewrite sum_blocks.
  assert (Hb : (i / 3 < k)%nat) by (apply Nat.Div0.div_lt_upper_bound; lia).
  rewrite (sum_ext k _
    (fun b => if Nat.eqb (i / 3) b
              then sum 3 (fun r => A (i mod 3)%nat r * C (3 * b + r)%nat j) else 0)).
  - apply (sum_pick k (i / 3)
             (fun b => sum 3 (fun r => A (i mod 3)%nat r * C (3 * b + r)%nat j))).
    assumption.
  - intros b _. unfold Spec.block_tile. cbn [sum].
    rewrite !div3_block, !mod3_block by lia.
    destruct (Nat.eqb (i / 3) b); ring.
Qed.

Lemma block_tile_product_r (k : nat) (A C : Matrix) (i j : nat) :
  (j < 3 * k)%nat ->
  product (3 * k) C (transpose (Spec.block_tile A)) i j
  = sum 3 (fun s => C i (3 * (j / 3) + s)%nat * A (j mod 3)%nat s).
Proof.
  intros Hj. unfold product. rewrite sum_blocks.
  assert (Hb : (j / 3 < k)%nat) by (apply Nat.Div0.div_lt_upper_bound; lia).
  rewrite (sum_ext k _
    (fun b => if Nat.eqb (j / 3) b
              then sum 3 (fun s => C i (3 * b + s)%nat * A (j mod 3)%nat s) else 0)).
  - apply (sum_pick k (j / 3)
             (fun b => sum 3 (fun s => C i (3 * b + s)%nat * A (j mod 3)%nat s))).
    assumption.
  - intros b _. unfold transpose, Spec.block_tile. cbn [sum].
    rewrite !div3_block, !mod3_block by lia.
    destruct (Nat.eqb (j / 3) b); ring.
Qed.

(** The sandwich by a tiled matrix works block by block. *)
Lemma sandwich_block (k : nat) (A C : Matrix) (a b r s : nat) :
  (a < k)%nat -> (b < k)%nat -> (r < 3)%nat -> (s < 3)%nat ->
  Spec.sandwich (3 * k) (Spec.block_tile A) C (3 * a + r)%nat (3 * b + s)%nat
  = Spec.sandwich 3 A (Props.block a b C) r s.
Proof.
  intros Ha Hb Hr Hs. unfold Spec.sandwich.
  rewrite block_tile_product_r by lia.
  rewrite div3_block, mod3_block by assumption.
  unfold product at 2. unfold transpose.
  apply sum_ext; intros s' Hs'. f_equal.
  rewrite block_tile_product_l by lia.
  rewrite div3_block, mod3_block by assumption. reflexivity.
Qed.

Lemma block_tile_orthogonal (k : nat) (Rot : Matrix) :
  Spec.agree 3 (product 3 (transpose Rot) Rot) Identity ->
  Spec.agree (3 * k)
    (product (3 * k) (transpose (Spec.block_tile Rot)) (Spec.block_tile Rot)) Identity.
Proof.
  intros H.
  apply agree_trans
    with (product (3 * k) (Spec.block_tile (transpose Rot)) (Spec.block_tile Rot)).
  { apply product_agree; [apply agree_pointwise, block_tile_transpose | apply agree_refl]. }
  eapply agree_trans; [apply block_tile_product |].
  intros i j _ _. rewrite <- block_tile_Identity. apply block_tile_pointwise, H.
Qed.

End SandwichAlgebra.

(** ** The sandwich by the tiled rotation of a quaternion *)

Section TiledRotations.

Import ftf.

Lemma normalized_orthogonal_l (q : Eigen.Quaterniond) :
  0 < Eigen.squaredNorm q ->
  Spec.agree 3
    (Eigen.product 3
       (Eigen.transpose (Eigen.toRotationMatrix (Eigen.normalized q)))
       (Eigen.toRotationMatrix (Eigen.normalized q)))
    Eigen.Identity.
Proof. intros Hq. apply toRotationMatrix_orthogonal_l, squaredNorm_normalized, Hq. Qed.

Lemma sandwich_frame_symmetric (n : nat) (cov : list R) (q : Eigen.Quaterniond) :
  Spec.symmetric n cov -> Spec.symmetric n (Spec.sandwich_frame n cov q).
Proof.
  intros H. apply symmetric_assign, sandwich_symmetric, symmetric_Map, H.
Qed.

Lemma sandwich_frame_trace (k : nat) (cov : list R) (q : Eigen.Quaterniond) :
  0 < Eigen.squaredNorm q ->
  Props.trace (3 * k) (Spec.sandwich_frame (3 * k) cov q) = Props.trace (3 * k) cov.
Proof.
  intros Hq. unfold Spec.sandwich_frame. rewrite trace_assign.
  apply trace_sandwich, block_tile_orthogonal, normalized_orthogonal_l, Hq.
Qed.

Lemma sandwich_frame_block (k : nat) (cov : list R) (q : Eigen.Quaterniond)
    (a b r s : nat) :
  (a < k)%nat -> (b < k)%nat -> (r < 3)%nat -> (s < 3)%nat ->
  Eigen.Map (3 * k) (Spec.sandwich_frame (3 * k) cov q) (3 * a + r)%nat (3 * b + s)%nat
  = Spec.sandwich 3 (Eigen.toRotationMatrix (Eigen.normalized q))
      (Props.block a b (Eigen.Map (3 * k) cov)) r s.
Proof.
  intros Ha Hb Hr Hs. unfold Spec.sandwich_frame.
  rewrite Map_assign by lia. apply sandwich_block; assumption.
Qed.

Lemma sandwich_frame_compose (k : nat) (cov : list R) (p q : Eigen.Quaterniond) :
  0 < Eigen.squaredNorm p -> 0 < Eigen.squaredNorm q ->
  Spec.sandwich_frame (3 * k) (Spec.sandwich_frame (3 * k) cov q) p
  = Spec.sandwich_frame (3 * k) cov (Eigen.quat_product p q).
Proof.
  intros Hp Hq. unfold Spec.sandwich_frame. apply assign_agree.
  eapply agree_trans; [apply sandwich_agree; [apply agree_refl | apply Map_assign] |].
  eapply agree_trans; [apply sandwich_compose |].
  apply sandwich_agree; [| apply agree_refl].
  eapply agree_trans; [apply block_tile_product |].
  apply agree_pointwise, block_tile_pointwise, agree_sym.
  rewrite normalized_product by assumption.
  apply toRotationMatrix_product; apply squaredNorm_normalized; assumption.
Qed.

Lemma sandwich_frame_conjugate (k : nat) (cov : list R) (q : Eigen.Quaterniond) :
  0 < Eigen.squaredNorm q ->
  length cov = (3 * k * (3 * k))%nat ->
  Spec.sandwich_frame (3 * k) (Spec.sandwich_frame (3 * k) cov q) (Props.conjugate q) = cov.
Proof.
  intros Hq Hlen. unfold Spec.sandwich_frame.
  transitivity (Eigen.assign (3 * k) (Eigen.Map (3 * k) cov)); [| apply assign_Map, Hlen].
  apply assign_agree.
  eapply agree_trans; [apply sandwich_agree; [apply agree_refl | apply Map_assign] |].
  eapply agree_trans; [apply sandwich_compose |].
  eapply agree_trans; [| apply sandwich_Identity].
  apply sandwich_agree; [| apply agree_refl].
  eapply agree_trans; [| apply block_tile_orthogonal, normalized_orthogonal_l, Hq].
  apply product_agree; [| apply agree_refl].
  intros i j _ _. rewrite block_tile_transpose. apply block_tile_pointwise.
  apply agree_pointwise. intros i' j'.
  rewrite normalized_conjugate. apply toRotationMatrix_conjugate.
Qed.

(** The same for the canonical rotation of a selector. *)
Lemma canonical_R_orthogonal_l (transform : StaticTF) :
  Spec.agree 3
    (Eigen.product 3 (Eigen.transpose (Spec.canonical_R transform))
       (Spec.canonical_R transform))
    Eigen.Identity.
Proof.
  eapply agree_trans; [| apply canonical_R_square].
  apply product_agree; [apply agree_pointwise, canonical_R_transpose | apply agree_refl].
Qed.

Lemma sandwich_static_trace (k : nat) (cov : list R) (transform : StaticTF) :
  Props.trace (3 * k)
    (Eigen.assign (3 * k)
       (Spec.sandwich (3 * k) (Spec.block_tile (Spec.canonical_R transform))
          (Eigen.Map (3 * k) cov)))
  = Props.trace (3 * k) cov.
Proof.
  rewrite trace_assign.
  apply trace_sandwich, block_tile_orthogonal, canonical_R_orthogonal_l.
Qed.

Lemma sandwich_swap_xy_flip_z (B : Eigen.Matrix) (r s : nat) :
  (r < 3)%nat -> (s < 3)%nat ->
  Spec.sandwich 3 Spec.swap_xy_flip_z B r s
  = Props.NED_ENU_sign r * Props.NED_ENU_sign s
    * B (Props.NED_ENU_axis r) (Props.NED_ENU_axis s).
Proof.
  intros Hr Hs. unfold Spec.sandwich, Eigen.product, Eigen.transpose. cbn [Eigen.sum].
  destruct r as [| [| [| r]]]; [| | | lia];
    (destruct s as [| [| [| s]]]; [| | | lia]); simpl; ring.
Qed.

Lemma sandwich_flip_yz (B : Eigen.Matrix) (r s : nat) :
  (r < 3)%nat -> (s < 3)%nat ->
  Spec.sandwich 3 Spec.flip_yz B r s
  = Props.AIRCRAFT_BASELINK_sign r * Props.AIRCRAFT_BASELINK_sign s * B r s.
Proof.
  intros Hr Hs. unfold Spec.sandwich, Eigen.product, Eigen.transpose. cbn [Eigen.sum].
  destruct r as [| [| [| r]]]; [| | | lia];
    (destruct s as [| [| [| s]]]; [| | | lia]); simpl; ring.
Qed.

Lemma sandwich_static_cells (k : nat) (cov : list R) (transform : StaticTF)
    (a b r s : nat) :
  (a < k)%nat -> (b < k)%nat -> (r < 3)%nat -> (s < 3)%nat ->
  Eigen.Map (3 * k)
    (Eigen.assign (3 * k)
       (Spec.sandwich (3 * k) (Spec.block_tile (Spec.canonical_R transform))
          (Eigen.Map (3 * k) cov)))
    (3 * a + r)%nat (3 * b + s)%nat
  = match transform with
    | NED_TO_ENU | ENU_TO_NED =>
        Props.NED_ENU_sign r * Props.NED_ENU_sign s
        * Eigen.Map (3 * k) cov (3 * a + Props.NED_ENU_axis r)%nat
            (3 * b + Props.NED_ENU_axis s)%nat
    | AIRCRAFT_TO_BASELINK | BASELINK_TO_AIRCRAFT =>
        Props.AIRCRAFT_BASELINK_sign r * Props.AIRCRAFT_BASELINK_sign s
        * Eigen.Map (3 * k) cov (3 * a + r)%nat (3 * b + s)%nat
    end.
Proof.
  intros Ha Hb Hr Hs. rewrite Map_assign by lia.
  rewrite sandwich_block by assumption.
  destruct transform; simpl Spec.canonical_R.
  1, 2: rewrite (sandwich_agree 3 _ Spec.swap_xy_flip_z _ _
                   (agree_pointwise 3 _ _ NED_ENU_R_value) (agree_refl 3 _))
          by assumption; rewrite sandwich_swap_xy_flip_z by assumption; reflexivity.
  1, 2: rewrite (sandwich_agree 3 _ Spec.flip_yz _ _
                   (agree_pointwise 3 _ _ AIRCRAFT_BASELINK_R_value) (agree_refl 3 _))
          by assumption; rewrite sandwich_flip_yz by assumption; reflexivity.
Qed.

End TiledRotations.

(** ** Further properties of the covariance transforms *)

Section CovarianceProperties.

Import ftf ftf.detail.

Ltac cells := repeat (apply f_equal2; [ring |]); reflexivity.

Lemma symmetric_Identity (n : nat) : Spec.symmetric n (Eigen.assign n Eigen.Identity).
Proof. apply symmetric_assign, agree_pointwise, Identity_transpose. Qed.

(** X8.  The static transform of size 3 on the cells of its input: the
    NED/ENU selectors exchange the first two columns and negate the third,
    the aircraft/base-link selectors negate the second and third columns. *)
Theorem X8_static_Covariance3d_cells
    (c00 c01 c02 c10 c11 c12 c20 c21 c22 : R) (transform : StaticTF) :
  transform_static_frame_Covariance3d [c00; c01; c02; c10; c11; c12; c20; c21; c22] transform
  = match transform with
    | NED_TO_ENU | ENU_TO_NED =>
        [c01; c00; - c02; c11; c10; - c12; c21; c20; - c22]
    | AIRCRAFT_TO_BASELINK | BASELINK_TO_AIRCRAFT =>
        [c00; - c01; - c02; c10; - c11; - c12; c20; - c21; - c22]
    end.
Proof.
  rewrite static_Covariance3d_product.
  destruct transform; simpl Spec.canonical_R.
  1, 2: rewrite (assign_agree 3 _ _
                   (product_agree 3 _ _ _ _ (agree_refl 3 _)
                      (agree_pointwise 3 _ _ NED_ENU_R_value))).
  3, 4: rewrite (assign_agree 3 _ _
                   (product_agree 3 _ _ _ _ (agree_refl 3 _)
                      (agree_pointwise 3 _ _ AIRCRAFT_BASELINK_R_value))).
  all: rewrite assign3_cells;
    unfold Eigen.product, Eigen.Map, Spec.swap_xy_flip_z, Spec.flip_yz;
    cbn [Eigen.sum nth Nat.mul Nat.add]; cells.
Qed.

(** X9.  The static transforms of size 6 and 9 only move and negate cells.
    In block coordinates (block a, axis r; block b, axis s), a NED/ENU
    selector returns at that place the input cell with axes x and y
    exchanged, negated once for each of r, s that is the z axis; an
    aircraft/base-link selector returns the input cell of the same place,
    negated once for each of r, s that is the y or z axis. *)
Theorem X9_static_Covariance6d9d_cells
    (cov6 : Covariance6d) (cov9 : Covariance9d) (transform : StaticTF) (a b r s : nat) :
  (r < 3)%nat -> (s < 3)%nat ->
  ((a < 2)%nat -> (b < 2)%nat ->
   Eigen.Map 6 (transform_static_frame_Covariance6d cov6 transform)
     (3 * a + r)%nat (3 * b + s)%nat
   = match transform with
     | NED_TO_ENU | ENU_TO_NED =>
         Props.NED_ENU_sign r * Props.NED_ENU_sign s
         * Eigen.Map 6 cov6 (3 * a + Props.NED_ENU_axis r)%nat
             (3 * b + Props.NED_ENU_axis s)%nat
     | AIRCRAFT_TO_BASELINK | BASELINK_TO_AIRCRAFT =>
         Props.AIRCRAFT_BASELINK_sign r * Props.AIRCRAFT_BASELINK_sign s
         * Eigen.Map 6 cov6 (3 * a + r)%nat (3 * b + s)%nat
     end)
  /\ ((a < 3)%nat -> (b < 3)%nat ->
      Eigen.Map 9 (transform_static_frame_Covariance9d cov9 transform)
        (3 * a + r)%nat (3 * b + s)%nat
      = match transform with
        | NED_TO_ENU | ENU_TO_NED =>
            Props.NED_ENU_sign r * Props.NED_ENU_sign s
            * Eigen.Map 9 cov9 (3 * a + Props.NED_ENU_axis r)%nat
                (3 * b + Props.NED_ENU_axis s)%nat
        | AIRCRAFT_TO_BASELINK | BASELINK_TO_AIRCRAFT =>
            Props.AIRCRAFT_BASELINK_sign r * Props.AIRCRAFT_BASELINK_sign s
            * Eigen.Map 9 cov9 (3 * a + r)%nat (3 * b + s)%nat
        end).
Proof.
  intros Hr Hs. split; intros Ha Hb.
  - rewrite static_Covariance6d_sandwich.
    exact (sandwich_static_cells 2 cov6 transform a b r s Ha Hb Hr Hs).
  - rewrite static_Covariance9d_sandwich.
    exact (sandwich_static_cells 3 cov9 transform a b r s Ha Hb Hr Hs).
Qed.

Lemma X9_static_Covariance6d9d_cells_witness :
  Eigen.Map 6
    (transform_static_frame_Covariance6d (Eigen.assign 6 Eigen.Identity) NED_TO_ENU)
    3%nat 5%nat
  = Props.NED_ENU_sign 0%nat * Props.NED_ENU_sign 2%nat
    * Eigen.Map 6 (Eigen.assign 6 Eigen.Identity) 4%nat 5%nat.
Proof.
  assert (H0 : (0 < 3)%nat) by lia. assert (H1 : (1 < 2)%nat) by lia.
  assert (H2 : (2 < 3)%nat) by lia.
  exact (proj1 (X9_static_Covariance6d9d_cells (Eigen.assign 6 Eigen.Identity)
                  (Eigen.assign 9 Eigen.Identity) NED_TO_ENU 1%nat 1%nat 0%nat 2%nat H0 H2)
           H1 H1).
Defined.

(** X10.  The static transforms of size 6 and 9 return a symmetric
    covariance for every symmetric input and every selector. *)
Theorem X10_static_Covariance6d9d_keep_symmetry
    (cov6 : Covariance6d) (cov9 : Covariance9d) (transform : StaticTF) :
  Spec.symmetric 6 cov6 -> Spec.symmetric 9 cov9 ->
  Spec.symmetric 6 (transform_static_frame_Covariance6d cov6 transform)
  /\ Spec.symmetric 9 (transform_static_frame_Covariance9d cov9 transform).
Proof.
  intros H6 H9. split.
  - apply static_Covariance6d_symmetric, H6.
  - apply static_Covariance9d_symmetric, H9.
Qed.

Lemma X10_static_Covariance6d9d_keep_symmetry_witness :
  Spec.symmetric 6 (Eigen.assign 6 Eigen.Identity)
  /\ Spec.symmetric 9 (Eigen.assign 9 Eigen.Identity)
  /\ Spec.symmetric 6
       (transform_static_frame_Covariance6d (Eigen.assign 6 Eigen.Identity) NED_TO_ENU)
  /\ Spec.symmetric 9
       (transform_static_frame_Covariance9d (Eigen.assign 9 Eigen.Identity) NED_TO_ENU).
Proof.
  split; [exact (symmetric_Identity 6) |]. split; [exact (symmetric_Identity 9) |].
  exact (X10_static_Covariance6d9d_keep_symmetry _ _ NED_TO_ENU
           (symmetric_Identity 6) (symmetric_Identity 9)).
Defined.

(** X11.  The static transforms of size 6 and 9 keep the trace (the total
    variance) of every input. *)
Theorem X11_static_Covariance6d9d_keep_trace
    (cov6 : Covariance6d) (cov9 : Covariance9d) (transform : StaticTF) :
  Props.trace 6 (transform_static_frame_Covariance6d cov6 transform) = Props.trace 6 cov6
  /\ Props.trace 9 (transform_static_frame_Covariance9d cov9 transform)
     = Props.trace 9 cov9.
Proof.
  split.
  - rewrite static_Covariance6d_sandwich. exact (sandwich_static_trace 2 cov6 transform).
  - rewrite static_Covariance9d_sandwich. exact (sandwich_static_trace 3 cov9 transform).
Qed.

(** X12.  At sizes 6 and 9 the dynamic transform is the sandwich product by
    the tiled rotation matrix of the normalised quaternion, for every input
    and every quaternion. *)
Theorem X12_frame_Covariance6d9d_sandwich
    (cov6 : Covariance6d) (cov9 : Covariance9d) (q : Eigen.Quaterniond) :
  transform_frame_Covariance6d cov6 q = Spec.sandwich_frame 6 cov6 q
  /\ transform_frame_Covariance9d cov9 q = Spec.sandwich_frame 9 cov9 q.
Proof.
  split; [apply frame_Covariance6d_sandwich | apply frame_Covariance9d_sandwich].
Qed.

(** X13.  The dynamic transforms of size 6 and 9 return a symmetric
    covariance for every symmetric input and every quaternion. *)
Theorem X13_frame_Covariance6d9d_keep_symmetry
    (cov6 : Covariance6d) (cov9 : Covariance9d) (q : Eigen.Quaterniond) :
  Spec.symmetric 6 cov6 -> Spec.symmetric 9 cov9 ->
  Spec.symmetric 6 (transform_frame_Covariance6d cov6 q)
  /\ Spec.symmetric 9 (transform_frame_Covariance9d cov9 q).
Proof.
  intros H6 H9. split.
  - rewrite frame_Covariance6d_sandwich. apply sandwich_frame_symmetric, H6.
  - rewrite frame_Covariance9d_sandwich. apply sandwich_frame_symmetric, H9.
Qed.

Lemma X13_frame_Covariance6d9d_keep_symmetry_witness :
  Spec.symmetric 6 (Eigen.assign 6 Eigen.Identity)
  /\ Spec.symmetric 9 (Eigen.assign 9 Eigen.Identity)
  /\ Spec.symmetric 6
       (transform_frame_Covariance6d (Eigen.assign 6 Eigen.Identity) (Eigen.Quaternion 1 2 3 4))
  /\ Spec.symmetric 9
       (transform_frame_Covariance9d (Eigen.assign 9 Eigen.Identity) (Eigen.Quaternion 1 2 3 4)).
Proof.
  split; [exact (symmetric_Identity 6) |]. split; [exact (symmetric_Identity 9) |].
  exact (X13_frame_Covariance6d9d_keep_symmetry _ _ (Eigen.Quaternion 1 2 3 4)
           (symmetric_Identity 6) (symmetric_Identity 9)).
Defined.

(** X14.  The dynamic transforms of size 6 and 9 work block by block: the
    3 x 3 block (a, b) of the result is R . B . Rt for B the block (a, b) of
    the input and R the rotation matrix of the normalised quaternion, cross
    blocks included. *)
Theorem X14_frame_Covariance6d9d_blockwise
    (cov6 : Covariance6d) (cov9 : Covariance9d) (q : Eigen.Quaterniond) (a b r s : nat) :
  (r < 3)%nat -> (s < 3)%nat ->
  ((a < 2)%nat -> (b < 2)%nat ->
   Eigen.Map 6 (transform_frame_Covariance6d cov6 q) (3 * a + r)%nat (3 * b + s)%nat
   = Spec.sandwich 3 (Eigen.toRotationMatrix (Eigen.normalized q))
       (Props.block a b (Eigen.Map 6 cov6)) r s)
  /\ ((a < 3)%nat -> (b < 3)%nat ->
      Eigen.Map 9 (transform_frame_Covariance9d cov9 q) (3 * a + r)%nat (3 * b + s)%nat
      = Spec.sandwich 3 (Eigen.toRotationMatrix (Eigen.normalized q))
          (Props.block a b (Eigen.Map 9 cov9)) r s).
Proof.
  intros Hr Hs. split; intros Ha Hb.
  - rewrite frame_Covariance6d_sandwich.
    exact (sandwich_frame_block 2 cov6 q a b r s Ha Hb Hr Hs).
  - rewrite frame_Covariance9d_sandwich.
    exact (sandwich_frame_block 3 cov9 q a b r s Ha Hb Hr Hs).
Qed.

Lemma X14_frame_Covariance6d9d_blockwise_witness :
  Eigen.Map 9 (transform_frame_Covariance9d (Eigen.assign 9 Eigen.Identity)
                 (Eigen.Quaternion 1 2 3 4)) 7%nat 2%nat
  = Spec.sandwich 3 (Eigen.toRotationMatrix (Eigen.normalized (Eigen.Quaternion 1 2 3 4)))
      (Props.block 2 0 (Eigen.Map 9 (Eigen.assign 9 Eigen.Identity))) 1%nat 2%nat.
Proof.
  assert (H0 : (0 < 3)%nat) by lia. assert (H1 : (1 < 3)%nat) by lia.
  assert (H2 : (2 < 3)%nat) by lia.
  exact (proj2 (X14_frame_Covariance6d9d_blockwise (Eigen.assign 6 Eigen.Identity)
                  (Eigen.assign 9 Eigen.Identity) (Eigen.Quaternion 1 2 3 4)
                  2%nat 0%nat 1%nat 2%nat H1 H2) H2 H0).
Defined.

Lemma sandwich_Zero (n : nat) (Rot B : Eigen.Matrix) (i j : nat) :
  Spec.agree n B Eigen.Zero -> (i < n)%nat -> (j < n)%nat -> Spec.sandwich n Rot B i j = 0.
Proof.
  intros HB Hi Hj.
  rewrite (sandwich_agree n Rot Rot B Eigen.Zero (agree_refl n Rot) HB) by assumption.
  unfold Spec.sandwich, Eigen.product, Eigen.Zero.
  rewrite (sum_ext n _ (fun _ => 0)); [apply sum_zero |].
  intros k _. rewrite (sum_ext n _ (fun _ => 0)); [rewrite sum_zero; ring |].
  intros l _. ring.
Qed.

Lemma Identity_cross_block (n r s : nat) :
  (r < 3)%nat -> (3 + s < n)%nat ->
  Eigen.Map n (Eigen.assign n Eigen.Identity) (3 * 0 + r)%nat (3 * 1 + s)%nat = 0.
Proof.
  intros Hr Hs. rewrite Map_assign by lia. unfold Eigen.Identity.
  destruct (Nat.eqb_spec (3 * 0 + r) (3 * 1 + s)); [lia | reflexivity].
Qed.

(** X15.  The dynamic transforms of size 6 and 9 do not leak between
    blocks: where a 3 x 3 block of the input is zero, the same block of the
    result is zero, so a block-diagonal covariance stays block-diagonal. *)
Theorem X15_frame_Covariance6d9d_zero_block
    (cov6 : Covariance6d) (cov9 : Covariance9d) (q : Eigen.Quaterniond) (a b : nat) :
  ((a < 2)%nat -> (b < 2)%nat ->
   (forall r s, (r < 3)%nat -> (s < 3)%nat ->
      Eigen.Map 6 cov6 (3 * a + r)%nat (3 * b + s)%nat = 0) ->
   forall r s, (r < 3)%nat -> (s < 3)%nat ->
     Eigen.Map 6 (transform_frame_Covariance6d cov6 q) (3 * a + r)%nat (3 * b + s)%nat = 0)
  /\ ((a < 3)%nat -> (b < 3)%nat ->
      (forall r s, (r < 3)%nat -> (s < 3)%nat ->
         Eigen.Map 9 cov9 (3 * a + r)%nat (3 * b + s)%nat = 0) ->
      forall r s, (r < 3)%nat -> (s < 3)%nat ->
        Eigen.Map 9 (transform_frame_Covariance9d cov9 q) (3 * a + r)%nat (3 * b + s)%nat
        = 0).
Proof.
  split; intros Ha Hb Hz r s Hr Hs.
  - rewrite frame_Covariance6d_sandwich.
    etransitivity; [exact (sandwich_frame_block 2 cov6 q a b r s Ha Hb Hr Hs) |].
    apply sandwich_Zero; [exact Hz | assumption | assumption].
  - rewrite frame_Covariance9d_sandwich.
    etransitivity; [exact (sandwich_frame_block 3 cov9 q a b r s Ha Hb Hr Hs) |].
    apply sandwich_Zero; [exact Hz | assumption | assumption].
Qed.

Lemma X15_frame_Covariance6d9d_zero_block_witness :
  Eigen.Map 6 (transform_frame_Covariance6d (Eigen.assign 6 Eigen.Identity)
                 (Eigen.Quaternion 1 2 3 4)) 0%nat 5%nat
  = 0.
Proof.
  assert (H0 : (0 < 2)%nat) by lia. assert (H1 : (1 < 2)%nat) by lia.
  assert (Hr : (0 < 3)%nat) by lia. assert (Hs : (2 < 3)%nat) by lia.
  assert (Hz : forall r s, (r < 3)%nat -> (s < 3)%nat ->
            Eigen.Map 6 (Eigen.assign 6 Eigen.Identity) (3 * 0 + r)%nat (3 * 1 + s)%nat = 0).
  { intros r s Hr' Hs'. apply Identity_cross_block; lia. }
  exact (proj1 (X15_frame_Covariance6d9d_zero_block (Eigen.assign 6 Eigen.Identity)
                  (Eigen.assign 9 Eigen.Identity) (Eigen.Quaternion 1 2 3 4) 0%nat 1%nat)
           H0 H1 Hz 0%nat 2%nat Hr Hs).
Defined.

(** X16.  For a quaternion whose squared norm is inside the range of double
    (between 2^-1000 and 2^1000), the dynamic transforms of size 6 and 9 keep
    the trace (the total variance) of every input; the equality is the one
    of exact arithmetic, which the program has up to rounding. *)
Theorem X16_frame_Covariance6d9d_keep_trace
    (cov6 : Covariance6d) (cov9 : Covariance9d) (q : Eigen.Quaterniond) :
  Props.in_double_range q ->
  Props.trace 6 (transform_frame_Covariance6d cov6 q) = Props.trace 6 cov6
  /\ Props.trace 9 (transform_frame_Covariance9d cov9 q) = Props.trace 9 cov9.
Proof.
  intros Hr. pose proof (in_double_range_positive q Hr) as Hq. split.
  - rewrite frame_Covariance6d_sandwich. exact (sandwich_frame_trace 2 cov6 q Hq).
  - rewrite frame_Covariance9d_sandwich. exact (sandwich_frame_trace 3 cov9 q Hq).
Qed.

Lemma X16_frame_Covariance6d9d_keep_trace_witness :
  Props.in_double_range (Eigen.Quaternion 0 0 0 1)
  /\ Props.trace 6 (transform_frame_Covariance6d (repeat 1 36) (Eigen.Quaternion 0 0 0 1))
     = Props.trace 6 (repeat 1 36)
  /\ Props.trace 9 (transform_frame_Covariance9d (repeat 1 81) (Eigen.Quaternion 0 0 0 1))
     = Props.trace 9 (repeat 1 81).
Proof.
  split; [exact in_double_range_Z |].
  exact (X16_frame_Covariance6d9d_keep_trace (repeat 1 36) (repeat 1 81) _
           in_double_range_Z).
Defined.

(** X17.  For a quaternion q whose squared norm is inside the range of
    double, the dynamic transforms of size 6 and 9 by q and then by the
    conjugate of q give the covariance back; the equality is the one of
    exact arithmetic, which the program has up to rounding. *)
Theorem X17_frame_Covariance6d9d_conjugate_undoes
    (cov6 : Covariance6d) (cov9 : Covariance9d) (q : Eigen.Quaterniond) :
  Props.in_double_range q -> length cov6 = 36%nat -> length cov9 = 81%nat ->
  transform_frame_Covariance6d (transform_frame_Covariance6d cov6 q) (Props.conjugate q)
  = cov6
  /\ transform_frame_Covariance9d (transform_frame_Covariance9d cov9 q) (Props.conjugate q)
     = cov9.
Proof.
  intros Hr H6 H9. pose proof (in_double_range_positive q Hr) as Hq. split.
  - rewrite !frame_Covariance6d_sandwich. exact (sandwich_frame_conjugate 2 cov6 q Hq H6).
  - rewrite !frame_Covariance9d_sandwich. exact (sandwich_frame_conjugate 3 cov9 q Hq H9).
Qed.

Lemma X17_frame_Covariance6d9d_conjugate_undoes_witness :
  Props.in_double_range (Eigen.Quaternion 0 0 0 1)
  /\ length (repeat 1 36) = 36%nat
  /\ length (repeat 1 81) = 81%nat
  /\ transform_frame_Covariance6d
       (transform_frame_Covariance6d (repeat 1 36) (Eigen.Quaternion 0 0 0 1))
       (Props.conjugate (Eigen.Quaternion 0 0 0 1))
     = repeat 1 36
  /\ transform_frame_Covariance9d
       (transform_frame_Covariance9d (repeat 1 81) (Eigen.Quaternion 0 0 0 1))
       (Props.conjugate (Eigen.Quaternion 0 0 0 1))
     = repeat 1 81.
Proof.
  split; [exact in_double_range_Z |]. split; [reflexivity |]. split; [reflexivity |].
  exact (X17_frame_Covariance6d9d_conjugate_undoes (repeat 1 36) (repeat 1 81) _
           in_double_range_Z eq_refl eq_refl).
Defined.

(** X18.  For quaternions p and q whose squared norms, and that of the
    product p * q, are inside the range of double, the dynamic transforms of
    size 6 and 9 by q and then by p are the transform by p * q; the equality
    is the one of exact arithmetic, which the program has up to rounding. *)
Theorem X18_frame_Covariance6d9d_compose
    (cov6 : Covariance6d) (cov9 : Covariance9d) (p q : Eigen.Quaterniond) :
  Props.in_double_range p -> Props.in_double_range q ->
  Props.in_double_range (Eigen.quat_product p q) ->
  transform_frame_Covariance6d (transform_frame_Covariance6d cov6 q) p
  = transform_frame_Covariance6d cov6 (Eigen.quat_product p q)
  /\ transform_frame_Covariance9d (transform_frame_Covariance9d cov9 q) p
     = transform_frame_Covariance9d cov9 (Eigen.quat_product p q).
Proof.
  intros Hrp Hrq _.
  pose proof (in_double_range_positive p Hrp) as Hp.
  pose proof (in_double_range_positive q Hrq) as Hq. split.
  - rewrite !frame_Covariance6d_sandwich. exact (sandwich_frame_compose 2 cov6 p q Hp Hq).
  - rewrite !frame_Covariance9d_sandwich. exact (sandwich_frame_compose 3 cov9 p q Hp Hq).
Qed.

Lemma X18_frame_Covariance6d9d_compose_witness :
  Props.in_double_range (Eigen.Quaternion 0 1 0 0)
  /\ Props.in_double_range (Eigen.Quaternion 0 0 0 1)
  /\ Props.in_double_range
       (Eigen.quat_product (Eigen.Quaternion 0 1 0 0) (Eigen.Quaternion 0 0 0 1))
  /\ transform_frame_Covariance6d
       (transform_frame_Covariance6d (repeat 1 36) (Eigen.Quaternion 0 0 0 1))
       (Eigen.Quaternion 0 1 0 0)
     = transform_frame_Covariance6d (repeat 1 36)
         (Eigen.quat_product (Eigen.Quaternion 0 1 0 0) (Eigen.Quaternion 0 0 0 1))
  /\ transform_frame_Covariance9d
       (transform_frame_Covariance9d (repeat 1 81) (Eigen.Quaternion 0 0 0 1))
       (Eigen.Quaternion 0 1 0 0)
     = transform_frame_Covariance9d (repeat 1 81)
         (Eigen.quat_product (Eigen.Quaternion 0 1 0 0) (Eigen.Quaternion 0 0 0 1)).
Proof.
  split; [exact in_double_range_X |]. split; [exact in_double_range_Z |].
  split; [exact in_double_range_X_Z |].
  exact (X18_frame_Covariance6d9d_compose (repeat 1 36) (repeat 1 81) _ _
           in_double_range_X in_double_range_Z in_double_range_X_Z).
Defined.

(** X19.  What the dynamic transform of size 3 does: each row of the result
    is the same row of the input, rotated as a vector by the conjugate of
    the quaternion. *)
Theorem X19_frame_Covariance3d_rows (cov : Covariance3d) (q : Eigen.Quaterniond) (i : nat) :
  (i < 3)%nat ->
  Props.row (transform_frame_Covariance3d cov q) i
  = transform_frame_Vector3d (Props.row cov i) (Props.conjugate q).
Proof.
  intros Hi. unfold Props.row, transform_frame_Covariance3d, Eigen.product_rotation.
  rewrite !Map_assign by lia.
  unfold transform_frame_Vector3d, Eigen.transform_vector, Eigen.Affine3d_of_rotation.
  cbn [Eigen.linear Eigen.translation Eigen.vx Eigen.vy Eigen.vz].
  rewrite !toRotationMatrix_conjugate. unfold Eigen.transpose, Eigen.product.
  cbn [Eigen.sum]. f_equal; ring.
Qed.

Lemma X19_frame_Covariance3d_rows_witness :
  Props.row (transform_frame_Covariance3d Spec.diag123 (Eigen.Quaternion 1 2 3 4)) 1%nat
  = transform_frame_Vector3d (Props.row Spec.diag123 1%nat)
      (Props.conjugate (Eigen.Quaternion 1 2 3 4)).
Proof.
  assert (H : (1 < 3)%nat) by lia.
  exact (X19_frame_Covariance3d_rows Spec.diag123 (Eigen.Quaternion 1 2 3 4) 1%nat H).
Defined.

(** X20.  For unit quaternions, the dynamic transform of size 3 by p and
    then by q is the transform by the product p * q: the later rotation
    stands on the right, the reverse of sizes 6 and 9. *)
Theorem X20_frame_Covariance3d_compose (cov : Covariance3d) (p q : Eigen.Quaterniond) :
  Eigen.squaredNorm p = 1 -> Eigen.squaredNorm q = 1 ->
  transform_frame_Covariance3d (transform_frame_Covariance3d cov p) q
  = transform_frame_Covariance3d cov (Eigen.quat_product p q).
Proof.
  intros Hp Hq. unfold transform_frame_Covariance3d, Eigen.product_rotation.
  apply assign_agree.
  eapply agree_trans; [apply product_agree; [apply Map_assign | apply agree_refl] |].
  eapply agree_trans; [apply agree_pointwise, product_assoc |].
  apply product_agree; [apply agree_refl |].
  apply agree_sym, toRotationMatrix_product; assumption.
Qed.

Lemma X20_frame_Covariance3d_compose_witness :
  Eigen.squaredNorm (Eigen.Quaternion 0 1 0 0) = 1
  /\ Eigen.squaredNorm (Eigen.Quaternion 0 0 0 1) = 1
  /\ transform_frame_Covariance3d
       (transform_frame_Covariance3d Spec.diag123 (Eigen.Quaternion 0 1 0 0))
       (Eigen.Quaternion 0 0 0 1)
     = transform_frame_Covariance3d Spec.diag123
         (Eigen.quat_product (Eigen.Quaternion 0 1 0 0) (Eigen.Quaternion 0 0 0 1)).
Proof.
  split; [exact unit_X |]. split; [exact unit_Z |].
  exact (X20_frame_Covariance3d_compose Spec.diag123 _ _ unit_X unit_Z).
Defined.

(** X21.  For a unit quaternion q, the dynamic transform of size 3 by q and
    then by the conjugate of q gives the covariance back. *)
Theorem X21_frame_Covariance3d_conjugate_undoes (cov : Covariance3d) (q : Eigen.Quaterniond) :
  Eigen.squaredNorm q = 1 -> length cov = 9%nat ->
  transform_frame_Covariance3d (transform_frame_Covariance3d cov q) (Props.conjugate q)
  = cov.
Proof.
  intros Hq Hlen. unfold transform_frame_Covariance3d, Eigen.product_rotation.
  transitivity (Eigen.assign 3 (Eigen.Map 3 cov)); [| apply assign_Map, Hlen].
  apply assign_agree.
  eapply agree_trans; [apply product_agree; [apply Map_assign | apply agree_refl] |].
  eapply agree_trans; [apply agree_pointwise, product_assoc |].
  eapply agree_trans; [| apply product_Identity_r].
  apply product_agree; [apply agree_refl |].
  eapply agree_trans; [| apply toRotationMatrix_orthogonal, Hq].
  apply product_agree; [apply agree_refl | apply agree_pointwise, toRotationMatrix_conjugate].
Qed.

Lemma X21_frame_Covariance3d_conjugate_undoes_witness :
  Eigen.squaredNorm (Eigen.Quaternion 0 0 0 1) = 1
  /\ length Spec.diag123 = 9%nat
  /\ transform_frame_Covariance3d
       (transform_frame_Covariance3d Spec.diag123 (Eigen.Quaternion 0 0 0 1))
       (Props.conjugate (Eigen.Quaternion 0 0 0 1))
     = Spec.diag123.
Proof.
  split; [exact unit_Z |]. split; [reflexivity |].
  exact (X21_frame_Covariance3d_conjugate_undoes Spec.diag123 _ unit_Z eq_refl).
Defined.

(** X22.  The dynamic transforms that do not normalise, of a vector and of
    a covariance of size 3, return the same result for a quaternion and for
    its opposite. *)
Theorem X22_frame_opposite_quaternion
    (vec : Eigen.Vector3d) (cov : Covariance3d) (q : Eigen.Quaterniond) :
  transform_frame_Vector3d vec (Spec.opposite q) = transform_frame_Vector3d vec q
  /\ transform_frame_Covariance3d cov (Spec.opposite q) = transform_frame_Covariance3d cov q.
Proof.
  assert (H : Spec.agree 3 (Eigen.toRotationMatrix (Spec.opposite q))
                (Eigen.toRotationMatrix q)).
  { apply agree_pointwise. intros i j. apply toRotationMatrix_scale_sign. ring. }
  split.
  - apply transform_vector_agree, H.
  - apply assign_agree, product_agree; [apply agree_refl | exact H].
Qed.

Lemma toRotationMatrix_zero :
  Spec.agree 3 (Eigen.toRotationMatrix (Eigen.Quaternion 0 0 0 0)) Eigen.Identity.
Proof.
  intros i j Hi Hj. unfold Eigen.toRotationMatrix, Eigen.Identity.
  destruct i as [| [| [| i]]]; [| | | lia];
    (destruct j as [| [| [| j]]]; [| | | lia]); simpl; ring.
Qed.

(** X23.  The all-zero quaternion is taken as the identity rotation by the
    transforms that do not normalise: the vector and the covariance of size
    3 are returned unchanged. *)
Theorem X23_frame_zero_quaternion (vec : Eigen.Vector3d) (cov : Covariance3d) :
  length cov = 9%nat ->
  transform_frame_Vector3d vec (Eigen.Quaternion 0 0 0 0) = vec
  /\ transform_frame_Covariance3d cov (Eigen.Quaternion 0 0 0 0) = cov.
Proof.
  intros Hlen. split.
  - rewrite <- (transform_vector_Identity vec) at 2.
    apply transform_vector_agree, toRotationMatrix_zero.
  - transitivity (Eigen.assign 3 (Eigen.Map 3 cov)); [| apply assign_Map, Hlen].
    apply assign_agree.
    eapply agree_trans; [| apply product_Identity_r].
    apply product_agree; [apply agree_refl | apply toRotationMatrix_zero].
Qed.

Lemma X23_frame_zero_quaternion_witness :
  length Spec.diag123 = 9%nat
  /\ transform_frame_Vector3d (Eigen.Vector3 1 2 3) (Eigen.Quaternion 0 0 0 0)
     = Eigen.Vector3 1 2 3
  /\ transform_frame_Covariance3d Spec.diag123 (Eigen.Quaternion 0 0 0 0) = Spec.diag123.
Proof.
  split; [reflexivity |].
  exact (X23_frame_zero_quaternion (Eigen.Vector3 1 2 3) Spec.diag123 eq_refl).
Defined.

End CovarianceProperties.
